(** * Todo services of AI_Fellowship/REST_Api

    Two small HTTP services keep a list of todo items in memory:
    - [FastApi]: REST_Api/Fast_APi/app.py (typed, validated by pydantic
      models, identifiers taken from the length of the list);
    - [Flask]: REST_Api/Flask/app.py (untyped JSON, identifiers taken
      from a module-level counter).

    Each handler is embedded as a function from the module-level state
    to a response and the next state.  Python [int] is [Z], Python [str]
    is a list of code points, a dict with a fixed set of keys is a
    record. *)

From Stdlib Require Import ZArith NArith List String Ascii Bool Lia DecimalString.
From Stdlib Require FinFun.
Import ListNotations.

Open Scope Z_scope.

(** ** Python strings *)

(** A [str] is a sequence of Unicode code points; [len] counts them. *)
Definition char := N.
Definition str := list char.

Definition str_of (s : string) : str :=
  map N_of_ascii (list_ascii_of_string s).

Definition len {A : Type} (l : list A) : Z := Z.of_nat (List.length l).

Definition str_eqb (a b : str) : bool :=
  if list_eq_dec N.eq_dec a b then true else false.

(** The characters [str.strip()] removes when called without argument:
    the interpreter's whitespace table (U+0009..U+000D, U+001C..U+0020,
    U+0085, U+00A0, U+1680, U+2000..U+200A, U+2028, U+2029, U+202F,
    U+205F, U+3000). *)
Definition isspace (c : char) : bool :=
  ((0x09 <=? c) && (c <=? 0x0D) || (0x1C <=? c) && (c <=? 0x20)
   || (c =? 0x85) || (c =? 0xA0) || (c =? 0x1680)
   || (0x2000 <=? c) && (c <=? 0x200A)
   || (c =? 0x2028) || (c =? 0x2029) || (c =? 0x202F)
   || (c =? 0x205F) || (c =? 0x3000))%N.

Fixpoint lstrip (s : str) : str :=
  match s with
  | [] => []
  | c :: s' => if isspace c then lstrip s' else s
  end.

Definition rstrip (s : str) : str := rev (lstrip (rev s)).

Definition strip (s : str) : str := rstrip (lstrip s).

(** Empty, or made of whitespace only. *)
Definition blank (s : str) : bool := forallb isspace s.

(** [sub in s] on strings. *)
Fixpoint startswith (s sub : str) : bool :=
  match sub, s with
  | [], _ => true
  | _ :: _, [] => false
  | b :: sub', a :: s' => (a =? b)%N && startswith s' sub'
  end.

Fixpoint str_contains (s sub : str) : bool :=
  startswith s sub ||
  match s with
  | [] => false
  | _ :: s' => str_contains s' sub
  end.

(** [str(n)] for an int, as an f-string interpolates it. *)
Definition str_of_int (n : Z) : string := NilZero.string_of_int (Z.to_int n).

(** ** Variant A: the FastAPI service *)

Module FastApi.

(** The dicts kept in [todos] always carry the three keys
    "id", "task" and "completed". *)
Record Todo := mkTodo { id : Z; task : str; completed : bool }.

Definition Todo_eqb (a b : Todo) : bool :=
  (id a =? id b) && str_eqb (task a) (task b)
  && Bool.eqb (completed a) (completed b).

(** pydantic models. *)
Record TodoCreate := mkTodoCreate { create_task : str }.

Record TodoUpdate := mkTodoUpdate
  { update_task : option str; update_completed : option bool }.

(** [Field(..., min_length=1, max_length=200)]: a bound on [len] only,
    the value is not stripped. *)
Definition task_field_ok (s : str) : bool :=
  (1 <=? len s) && (len s <=? 200).

Definition validate_TodoCreate (raw_task : str) : option TodoCreate :=
  if task_field_ok raw_task then Some (mkTodoCreate raw_task) else None.

(** [Field(None, min_length=1, max_length=200)] and [Optional[bool]]. *)
Definition validate_TodoUpdate (raw_task : option str)
    (raw_completed : option bool) : option TodoUpdate :=
  match raw_task with
  | Some s =>
      if task_field_ok s then Some (mkTodoUpdate raw_task raw_completed)
      else None
  | None => Some (mkTodoUpdate None raw_completed)
  end.

(** What a handler does: return a value or raise [HTTPException]. *)
Inductive outcome (A : Type) : Type :=
| Return (v : A)
| HTTPException (status_code : Z) (detail : string).
Arguments Return {A} v.
Arguments HTTPException {A} status_code detail.

Definition HTTP_200_OK : Z := 200.
Definition HTTP_201_CREATED : Z := 201.
Definition HTTP_204_NO_CONTENT : Z := 204.
Definition HTTP_404_NOT_FOUND : Z := 404.
Definition HTTP_422_UNPROCESSABLE_ENTITY : Z := 422.

Definition not_found_detail (todo_id : Z) : string :=
  ("Todo with ID " ++ str_of_int todo_id ++ " not found")%string.

(** [return len(todos) + 1] *)
Definition get_next_id (todos : list Todo) : Z := len todos + 1.

(** [next((todo for todo in todos if todo["id"] == todo_id), None)] *)
Definition find_todo_by_id (todo_id : Z) (todos : list Todo) : option Todo :=
  find (fun todo => id todo =? todo_id) todos.

(** [todos.remove(todo)]: drops the first element equal to [todo]
    (dict equality is equality of all entries). *)
Fixpoint list_remove (todo : Todo) (todos : list Todo) : list Todo :=
  match todos with
  | [] => []
  | x :: rest => if Todo_eqb x todo then rest else x :: list_remove todo rest
  end.

(** Assignment to entries of the dict [find_todo_by_id] returned: that
    dict is the first element of [todos] with the given id, and the
    list holds it by reference, so the list sees the change. *)
Fixpoint mutate_found (todo_id : Z) (f : Todo -> Todo) (todos : list Todo)
    : list Todo :=
  match todos with
  | [] => []
  | x :: rest =>
      if id x =? todo_id then f x :: rest
      else x :: mutate_found todo_id f rest
  end.

Definition set_task (t : str) (todo : Todo) : Todo :=
  mkTodo (id todo) t (completed todo).

Definition set_completed (c : bool) (todo : Todo) : Todo :=
  mkTodo (id todo) (task todo) c.

(** The body of [update_todo] after the lookup: the two guarded
    assignments, in order. *)
Definition apply_update (todo_update : TodoUpdate) (todo : Todo) : Todo :=
  let todo :=
    match update_task todo_update with
    | Some t => set_task t todo
    | None => todo
    end in
  match update_completed todo_update with
  | Some c => set_completed c todo
  | None => todo
  end.

(** *** Handlers *)

Definition root : string * string := ("Welcome to Todo API", "/docs")%string.

Definition get_todos (todos : list Todo) : list Todo * list Todo :=
  (todos, todos).

Definition create_todo (todo : TodoCreate) (todos : list Todo)
    : Todo * list Todo :=
  let new_todo := mkTodo (get_next_id todos) (create_task todo) false in
  (new_todo, todos ++ [new_todo]).

Definition get_todo (todo_id : Z) (todos : list Todo)
    : outcome Todo * list Todo :=
  match find_todo_by_id todo_id todos with
  | None => (HTTPException HTTP_404_NOT_FOUND (not_found_detail todo_id), todos)
  | Some todo => (Return todo, todos)
  end.

Definition update_todo (todo_id : Z) (todo_update : TodoUpdate)
    (todos : list Todo) : outcome Todo * list Todo :=
  match find_todo_by_id todo_id todos with
  | None => (HTTPException HTTP_404_NOT_FOUND (not_found_detail todo_id), todos)
  | Some todo =>
      (Return (apply_update todo_update todo),
       mutate_found todo_id (apply_update todo_update) todos)
  end.

Definition delete_todo (todo_id : Z) (todos : list Todo)
    : outcome unit * list Todo :=
  match find_todo_by_id todo_id todos with
  | None => (HTTPException HTTP_404_NOT_FOUND (not_found_detail todo_id), todos)
  | Some todo => (Return tt, list_remove todo todos)
  end.

Record Health := mkHealth
  { status : string; todo_count : Z; version : string }.

Definition health_check (todos : list Todo) : Health * list Todo :=
  (mkHealth "healthy" (len todos) "1.0.0", todos).

(** *** The routes

    A request after routing and JSON decoding; the body fields are
    still unvalidated. *)
Inductive request : Type :=
| GET_root
| GET_todos
| POST_todos (raw_task : str)
| GET_todo (todo_id : Z)
| PUT_todo (todo_id : Z) (raw_task : option str) (raw_completed : option bool)
| DELETE_todo (todo_id : Z)
| GET_health.

Inductive body : Type :=
| Info (message docs : string)
| Items (l : list Todo)
| Item (todo : Todo)
| Empty
| HealthInfo (h : Health)
| Detail (detail : string)
| ValidationError.

Definition response : Type := Z * body.

Definition respond {A : Type} (success : Z) (render : A -> body)
    (r : outcome A * list Todo) : response * list Todo :=
  match fst r with
  | Return v => ((success, render v), snd r)
  | HTTPException code detail => ((code, Detail detail), snd r)
  end.

Definition unprocessable (todos : list Todo) : response * list Todo :=
  ((HTTP_422_UNPROCESSABLE_ENTITY, ValidationError), todos).

Definition handle (req : request) (todos : list Todo)
    : response * list Todo :=
  match req with
  | GET_root => ((HTTP_200_OK, Info (fst root) (snd root)), todos)
  | GET_todos =>
      let '(l, todos') := get_todos todos in ((HTTP_200_OK, Items l), todos')
  | POST_todos raw_task =>
      match validate_TodoCreate raw_task with
      | None => unprocessable todos
      | Some todo =>
          let '(new_todo, todos') := create_todo todo todos in
          ((HTTP_201_CREATED, Item new_todo), todos')
      end
  | GET_todo todo_id => respond HTTP_200_OK Item (get_todo todo_id todos)
  | PUT_todo todo_id raw_task raw_completed =>
      match validate_TodoUpdate raw_task raw_completed with
      | None => unprocessable todos
      | Some todo_update =>
          respond HTTP_200_OK Item (update_todo todo_id todo_update todos)
      end
  | DELETE_todo todo_id =>
      respond HTTP_204_NO_CONTENT (fun _ => Empty) (delete_todo todo_id todos)
  | GET_health =>
      let '(h, todos') := health_check todos in
      ((HTTP_200_OK, HealthInfo h), todos')
  end.

(** The module starts with [todos = []]; a run serves the requests in
    order. *)
Definition initial : list Todo := [].

Fixpoint run (reqs : list request) (todos : list Todo)
    : list response * list Todo :=
  match reqs with
  | [] => ([], todos)
  | req :: reqs' =>
      let '(resp, todos') := handle req todos in
      let '(resps, todos'') := run reqs' todos' in
      (resp :: resps, todos'')
  end.

Definition reachable (todos : list Todo) : Prop :=
  exists reqs, snd (run reqs initial) = todos.

Definition ids (todos : list Todo) : list Z := map id todos.

(** The ids are 1, 2, ..., [len(todos)], in this order. *)
Definition sequential (todos : list Todo) : Prop :=
  ids todos = map Z.of_nat (seq 1 (List.length todos)).

End FastApi.


(** ** Variant B: the Flask service *)

Module Flask.

(** What [request.get_json()] can return.  A JSON real is only ever
    tested for truth by the handler, so it is kept up to being zero. *)
#[local] Set Warnings "-register-all".
Inductive json : Type :=
| JNull
| JBool (b : bool)
| JInt (n : Z)
| JReal (is_zero : bool)
| JStr (s : str)
| JArr (l : list json)
| JObj (d : list (str * json)).

(** Unhandled exceptions of the handler body; [BadRequest] is what
    [get_json] raises on a body that does not parse. *)
Inductive exception : Type := BadRequest | TypeError | KeyError | AttributeError.

Inductive exc (A : Type) : Type :=
| Val (v : A)
| Raise (e : exception).
Arguments Val {A} v.
Arguments Raise {A} e.

Definition bind {A B : Type} (m : exc A) (k : A -> exc B) : exc B :=
  match m with
  | Val v => k v
  | Raise e => Raise e
  end.

Notation "x <- m ;; k" := (bind m (fun x => k))
  (at level 61, m at next level, right associativity).

(** [bool(data)] *)
Definition truthy (data : json) : bool :=
  match data with
  | JNull => false
  | JBool b => b
  | JInt n => negb (n =? 0)
  | JReal is_zero => negb is_zero
  | JStr s => negb (str_eqb s [])
  | JArr l => match l with [] => false | _ => true end
  | JObj d => match d with [] => false | _ => true end
  end.

Definition dict_get (key : str) (d : list (str * json)) : option json :=
  option_map snd (find (fun kv => str_eqb (fst kv) key) d).

Definition is_str (key : str) (v : json) : bool :=
  match v with
  | JStr s => str_eqb s key
  | _ => false
  end.

(** [key in data], for a string [key] *)
Definition contains (data : json) (key : str) : exc bool :=
  match data with
  | JObj d => Val (match dict_get key d with Some _ => true | None => false end)
  | JArr l => Val (existsb (is_str key) l)
  | JStr s => Val (str_contains s key)
  | JNull | JBool _ | JInt _ | JReal _ => Raise TypeError
  end.

(** [data[key]], for a string [key] *)
Definition getitem (data : json) (key : str) : exc json :=
  match data with
  | JObj d => match dict_get key d with Some v => Val v | None => Raise KeyError end
  | _ => Raise TypeError
  end.

(** [v.strip()] *)
Definition strip_method (v : json) : exc str :=
  match v with
  | JStr s => Val (strip s)
  | _ => Raise AttributeError
  end.

(** The dicts kept in [todos] are built by one literal with the keys
    "id" and "task". *)
Record Todo := mkTodo { id : Z; task : str }.

(** What [jsonify] sends for such a dict. *)
Definition jsonify_todo (todo : Todo) : json :=
  JObj [(str_of "id", JInt (id todo)); (str_of "task", JStr (task todo))].

(** The module-level globals. *)
Record state := mkState { todos : list Todo; next_id : Z }.

Definition initial : state := mkState [] 1.

Inductive payload : Type :=
| Listing (l : list Todo)
| Error (error : string)
| Created (new_todo : Todo)
| Home.

Inductive response : Type :=
| Reply (p : payload) (status : Z)
| Raised (e : exception).

Definition get_todos (st : state) : response * state :=
  (Reply (Listing (todos st)) 200, st).

(** [not data or 'task' not in data] *)
Definition task_missing (data : json) : exc bool :=
  if negb (truthy data) then Val true
  else present <- contains data (str_of "task") ;; Val (negb present).

Definition add_todo (is_json : bool) (get_json : option json) (st : state)
    : response * state :=
  if negb is_json then (Reply (Error "Request must be JSON") 400, st)
  else
    match get_json with
    | None => (Raised BadRequest, st)
    | Some data =>
        match task_missing data with
        | Raise e => (Raised e, st)
        | Val true => (Reply (Error "Task field is required") 400, st)
        | Val false =>
            match v <- getitem data (str_of "task") ;; strip_method v with
            | Raise e => (Raised e, st)
            | Val task =>
                if negb (truthy (JStr task))
                then (Reply (Error "Task cannot be empty") 400, st)
                else
                  let new_todo := mkTodo (next_id st) task in
                  (Reply (Created new_todo) 201,
                   mkState (todos st ++ [new_todo]) (next_id st + 1))
            end
        end
    end.

Definition home (st : state) : response * state := (Reply Home 200, st).

Inductive request : Type :=
| GET_todos
| POST_todos (is_json : bool) (get_json : option json)
| GET_home.

Definition handle (req : request) (st : state) : response * state :=
  match req with
  | GET_todos => get_todos st
  | POST_todos is_json get_json => add_todo is_json get_json st
  | GET_home => home st
  end.

Fixpoint run (reqs : list request) (st : state) : list response * state :=
  match reqs with
  | [] => ([], st)
  | req :: reqs' =>
      let '(resp, st') := handle req st in
      let '(resps, st'') := run reqs' st' in
      (resp :: resps, st'')
  end.

Definition reachable (st : state) : Prop :=
  exists reqs, snd (run reqs initial) = st.

Definition ids (l : list Todo) : list Z := map id l.

(** The identifiers handed out by a run: those of its 201 replies. *)
Definition created_id (resp : response) : option Z :=
  match resp with
  | Reply (Created new_todo) _ => Some (id new_todo)
  | _ => None
  end.

Fixpoint created_ids (resps : list response) : list Z :=
  match resps with
  | [] => []
  | resp :: rest =>
      match created_id resp with
      | Some i => i :: created_ids rest
      | None => created_ids rest
      end
  end.

(** The items a run sent back as created, in order. *)
Fixpoint created (resps : list response) : list Todo :=
  match resps with
  | [] => []
  | Reply (Created new_todo) _ :: rest => new_todo :: created rest
  | _ :: rest => created rest
  end.

(** A JSON body [{"task": t}]. *)
Definition task_body (t : str) : json := JObj [(str_of "task", JStr t)].

(** [start, start + 1, ...], [n] of them. *)
Fixpoint count_from (start : Z) (n : nat) : list Z :=
  match n with
  | O => []
  | S n' => start :: count_from (start + 1) n'
  end.

(** Every stored id was handed out by the counter, at most once. *)
Definition counter_inv (st : state) : Prop :=
  ids (todos st) = count_from 1 (List.length (todos st))
  /\ next_id st = 1 + len (todos st).

End Flask.


(** * Proofs *)

(** ** Strings *)

Lemma str_eqb_refl (s : str) : str_eqb s s = true.
Proof. unfold str_eqb. destruct (list_eq_dec N.eq_dec s s); congruence. Qed.

Lemma str_eqb_eq (a b : str) : str_eqb a b = true <-> a = b.
Proof.
  unfold str_eqb. destruct (list_eq_dec N.eq_dec a b); split; congruence.
Qed.

Lemma lstrip_blank (s : str) : blank s = true -> lstrip s = [].
Proof.
  induction s as [|c s IH]; simpl; [reflexivity|].
  intros H. apply andb_true_iff in H as [Hc Hs].
  rewrite Hc. auto.
Qed.

Lemma strip_blank (s : str) : blank s = true -> strip s = [].
Proof.
  intros H. unfold strip, rstrip. rewrite (lstrip_blank s H). reflexivity.
Qed.

Lemma len_app {A : Type} (l : list A) (x : A) : len (l ++ [x]) = len l + 1.
Proof. unfold len. rewrite length_app. simpl. lia. Qed.

Lemma len_nonneg {A : Type} (l : list A) : 0 <= len l.
Proof. unfold len. lia. Qed.

(** ** Variant A *)

Section FastApiFacts.
Import FastApi.

Lemma Todo_eqb_refl (t : Todo) : Todo_eqb t t = true.
Proof.
  unfold Todo_eqb. rewrite Z.eqb_refl, str_eqb_refl, Bool.eqb_reflx. reflexivity.
Qed.

Lemma Todo_eqb_id (a b : Todo) : Todo_eqb a b = true -> id a = id b.
Proof.
  unfold Todo_eqb. intros H.
  apply andb_true_iff in H as [H _]. apply andb_true_iff in H as [H _].
  now apply Z.eqb_eq.
Qed.

Lemma find_todo_by_id_absent (todo_id : Z) (todos : list Todo) :
  ~ In todo_id (ids todos) -> find_todo_by_id todo_id todos = None.
Proof.
  unfold find_todo_by_id, ids.
  induction todos as [|x rest IH]; simpl; [reflexivity|].
  intros H. destruct (Z.eqb_spec (id x) todo_id) as [E|E].
  - exfalso. apply H. now left.
  - apply IH. intros Hin. apply H. now right.
Qed.

Lemma find_todo_by_id_present (todo_id : Z) (todos : list Todo) :
  In todo_id (ids todos) ->
  exists todo, find_todo_by_id todo_id todos = Some todo.
Proof.
  unfold find_todo_by_id, ids.
  induction todos as [|x rest IH]; simpl; [tauto|].
  intros [E|Hin].
  - rewrite E, Z.eqb_refl. now exists x.
  - destruct (id x =? todo_id); [now exists x | auto].
Qed.

Lemma find_todo_by_id_sound (todo_id : Z) (todos : list Todo) (todo : Todo) :
  find_todo_by_id todo_id todos = Some todo ->
  In todo todos /\ id todo = todo_id.
Proof.
  unfold find_todo_by_id. intros H. apply find_some in H as [Hin E].
  split; [assumption | now apply Z.eqb_eq].
Qed.

(** With distinct ids, every stored item is the one its id finds. *)
Lemma find_todo_by_id_unique (todos : list Todo) (todo : Todo) :
  NoDup (ids todos) -> In todo todos ->
  find_todo_by_id (id todo) todos = Some todo.
Proof.
  unfold find_todo_by_id, ids.
  induction todos as [|x rest IH]; simpl; [tauto|].
  intros Hnd [E|Hin].
  - subst x. now rewrite Z.eqb_refl.
  - inversion Hnd as [|? ? Hx Hrest]; subst.
    destruct (Z.eqb_spec (id x) (id todo)) as [E|E].
    + exfalso. apply Hx. rewrite E. now apply in_map.
    + auto.
Qed.

(** Removing the dict the lookup returned removes the first item with
    that id. *)
Lemma list_remove_found (todo_id : Z) (todos : list Todo) (todo : Todo) :
  find_todo_by_id todo_id todos = Some todo ->
  exists before after,
    todos = before ++ todo :: after
    /\ ~ In todo_id (ids before)
    /\ list_remove todo todos = before ++ after.
Proof.
  unfold find_todo_by_id, ids.
  induction todos as [|x rest IH]; simpl; [discriminate|].
  destruct (Z.eqb_spec (id x) todo_id) as [E|E].
  - intros [= ->]. exists [], rest. rewrite Todo_eqb_refl. simpl. tauto.
  - intros H. pose proof H as Hf. apply find_some in Hf as [_ Hid].
    apply Z.eqb_eq in Hid.
    destruct (IH H) as (before & after & -> & Hno & Hrm).
    exists (x :: before), after. simpl.
    destruct (Todo_eqb x todo) eqn:Heq.
    + apply Todo_eqb_id in Heq. congruence.
    + rewrite Hrm. repeat split; try reflexivity.
      intros [F|F]; [congruence | tauto].
Qed.

(** The same for an update: it rewrites the first item with that id. *)
Lemma mutate_found_spec (todo_id : Z) (f : Todo -> Todo) (todos : list Todo)
    (todo : Todo) :
  find_todo_by_id todo_id todos = Some todo ->
  exists before after,
    todos = before ++ todo :: after
    /\ ~ In todo_id (ids before)
    /\ mutate_found todo_id f todos = before ++ f todo :: after.
Proof.
  unfold find_todo_by_id, ids.
  induction todos as [|x rest IH]; simpl; [discriminate|].
  destruct (Z.eqb_spec (id x) todo_id) as [E|E].
  - intros [= ->]. exists [], rest. simpl. tauto.
  - intros H. destruct (IH H) as (before & after & -> & Hno & Hmu).
    exists (x :: before), after. simpl. rewrite Hmu.
    repeat split; try reflexivity.
    intros [F|F]; [congruence | tauto].
Qed.

Lemma find_todo_by_id_skip (todo_id : Z) (before rest : list Todo) :
  ~ In todo_id (ids before) ->
  find_todo_by_id todo_id (before ++ rest) = find_todo_by_id todo_id rest.
Proof.
  unfold find_todo_by_id, ids.
  induction before as [|x before IH]; simpl; [reflexivity|].
  intros H. destruct (Z.eqb_spec (id x) todo_id) as [E|E]; [tauto|].
  apply IH. tauto.
Qed.

Lemma apply_update_id (todo_update : TodoUpdate) (todo : Todo) :
  id (apply_update todo_update todo) = id todo.
Proof.
  unfold apply_update.
  destruct (update_task todo_update), (update_completed todo_update);
    reflexivity.
Qed.

(** Under the uniqueness invariant a delete leaves no item with the id. *)
Lemma delete_todo_unique (todo_id : Z) (todos : list Todo) :
  NoDup (ids todos) -> In todo_id (ids todos) ->
  fst (delete_todo todo_id todos) = Return tt
  /\ ~ In todo_id (ids (snd (delete_todo todo_id todos)))
  /\ fst (get_todo todo_id (snd (delete_todo todo_id todos)))
     = HTTPException HTTP_404_NOT_FOUND (not_found_detail todo_id).
Proof.
  intros Hnd Hin. unfold delete_todo.
  destruct (find_todo_by_id_present _ _ Hin) as [todo Hf]. rewrite Hf. simpl.
  destruct (find_todo_by_id_sound _ _ _ Hf) as [_ Hid].
  destruct (list_remove_found _ _ _ Hf) as (before & after & -> & Hno & ->).
  assert (Habs : ~ In todo_id (ids (before ++ after))).
  { unfold ids in *. rewrite map_app in *. simpl in Hnd.
    apply NoDup_remove_2 in Hnd. now rewrite Hid in Hnd. }
  repeat split; try assumption.
  unfold get_todo. now rewrite (find_todo_by_id_absent _ _ Habs).
Qed.

End FastApiFacts.

(** ** Variant B *)

Section FlaskFacts.
Import Flask.

Lemma count_from_snoc (start : Z) (n : nat) :
  count_from start (S n) = count_from start n ++ [start + Z.of_nat n].
Proof.
  revert start. induction n as [|n IH]; intros start.
  - simpl. f_equal. lia.
  - change (count_from start (S (S n)))
      with (start :: count_from (start + 1) (S n)).
    rewrite IH. simpl. do 3 f_equal. lia.
Qed.

Lemma count_from_In (start : Z) (n : nat) (x : Z) :
  In x (count_from start n) -> start <= x < start + Z.of_nat n.
Proof.
  revert start. induction n as [|n IH]; intros start; simpl; [tauto|].
  intros [E|Hin]; [lia|]. apply IH in Hin. lia.
Qed.

Lemma count_from_NoDup (start : Z) (n : nat) : NoDup (count_from start n).
Proof.
  revert start. induction n as [|n IH]; intros start; simpl; constructor.
  - intros Hin. apply count_from_In in Hin. lia.
  - apply IH.
Qed.

(** The two ways [add_todo] can end: nothing changes and no item is
    sent back, or one item carrying the counter is appended and the
    counter moves by one. *)
Lemma add_todo_cases (is_json : bool) (get_json : option json) (st : state) :
  (created_id (fst (add_todo is_json get_json st)) = None
   /\ snd (add_todo is_json get_json st) = st)
  \/ (exists task,
        let new_todo := mkTodo (next_id st) task in
        add_todo is_json get_json st
        = (Reply (Created new_todo) 201,
           mkState (todos st ++ [new_todo]) (next_id st + 1))).
Proof.
  unfold add_todo.
  destruct is_json; simpl; [|now left].
  destruct get_json as [data|]; [|now left].
  destruct (task_missing data) as [[|]|e]; try (now left).
  destruct (bind _ _) as [task|e]; [|now left].
  destruct (negb _); [now left|].
  right. now exists task.
Qed.

Lemma handle_cases (req : request) (st : state) :
  (created_id (fst (handle req st)) = None /\ snd (handle req st) = st)
  \/ (exists task,
        let new_todo := mkTodo (next_id st) task in
        handle req st
        = (Reply (Created new_todo) 201,
           mkState (todos st ++ [new_todo]) (next_id st + 1))).
Proof.
  destruct req as [|is_json get_json|]; simpl; try (now left).
  apply add_todo_cases.
Qed.

Lemma counter_inv_initial : counter_inv initial.
Proof. split; reflexivity. Qed.

Lemma counter_inv_handle (req : request) (st : state) :
  counter_inv st -> counter_inv (snd (handle req st)).
Proof.
  intros [Hids Hnext].
  destruct (handle_cases req st) as [[_ ->]|[task ->]]; [now split|].
  unfold counter_inv, ids in *. cbn [fst snd todos next_id].
  rewrite map_app, length_app, Hids, len_app. cbn [map id List.length].
  rewrite Nat.add_1_r, count_from_snoc. split; [|lia].
  do 2 f_equal. rewrite Hnext. unfold len. lia.
Qed.

Lemma run_cons (req : request) (reqs : list request) (st : state) :
  run (req :: reqs) st
  = (fst (handle req st) :: fst (run reqs (snd (handle req st))),
     snd (run reqs (snd (handle req st)))).
Proof.
  simpl. destruct (handle req st) as [resp st']. simpl.
  now destruct (run reqs st').
Qed.

Lemma counter_inv_run (reqs : list request) (st : state) :
  counter_inv st -> counter_inv (snd (run reqs st)).
Proof.
  revert st. induction reqs as [|req reqs IH]; intros st H; [exact H|].
  rewrite run_cons. simpl. apply IH. now apply counter_inv_handle.
Qed.

Lemma reachable_counter_inv (st : state) : reachable st -> counter_inv st.
Proof.
  intros [reqs <-]. apply counter_inv_run, counter_inv_initial.
Qed.

(** Stored ids lie below the counter and are pairwise distinct. *)
Lemma counter_inv_fresh (st : state) :
  counter_inv st ->
  NoDup (ids (todos st)) /\ ~ In (next_id st) (ids (todos st)).
Proof.
  intros [Hids Hnext]. rewrite Hids. split.
  - apply count_from_NoDup.
  - intros Hin. apply count_from_In in Hin. unfold len in Hnext. lia.
Qed.

(** In variant B no reachable store holds an id twice. *)
Lemma flask_reachable_ids_unique (st : state) :
  reachable st -> NoDup (ids (todos st)).
Proof.
  intros H. apply counter_inv_fresh, reachable_counter_inv, H.
Qed.

(** The ids a run hands out count up from the counter it started with. *)
Lemma run_created_ids (reqs : list request) (st : state) :
  let created := created_ids (fst (run reqs st)) in
  created = count_from (next_id st) (List.length created)
  /\ next_id (snd (run reqs st)) = next_id st + len created.
Proof.
  revert st. induction reqs as [|req reqs IH]; intros st.
  - simpl. split; [reflexivity | unfold len; simpl; lia].
  - rewrite run_cons. cbn [fst snd created_ids].
    destruct (handle_cases req st) as [[Hnone Hst]|[task Hmk]].
    + rewrite Hnone, Hst. apply IH.
    + rewrite Hmk. cbn [fst snd created_id id].
      specialize (IH (mkState (todos st ++ [mkTodo (next_id st) task])
                              (next_id st + 1))).
      cbn [next_id] in IH. destruct IH as [IH1 IH2].
      cbn zeta. split.
      * cbn [List.length count_from]. f_equal. exact IH1.
      * rewrite IH2. unfold len. cbn [List.length]. lia.
Qed.

End FlaskFacts.

(** * The claims *)

(** C1 (variant A breaks the invariant): serving create, create, create,
    delete 2, create from the empty store reaches a store whose ids are
    1, 3, 3, so two stored items share an id. *)
Theorem fastapi_reaches_duplicate_ids :
  let reqs := [FastApi.POST_todos (str_of "a"); FastApi.POST_todos (str_of "b");
               FastApi.POST_todos (str_of "c"); FastApi.DELETE_todo 2;
               FastApi.POST_todos (str_of "d")] in
  let todos := snd (FastApi.run reqs FastApi.initial) in
  FastApi.reachable todos
  /\ FastApi.ids todos = [1; 3; 3]
  /\ ~ NoDup (FastApi.ids todos).
Proof.
  cbv zeta. split; [|split].
  - eexists. reflexivity.
  - reflexivity.
  - change (~ NoDup [1; 3; 3]). intros H.
    inversion H as [|? ? _ H1]; subst.
    inversion H1 as [|? ? Hin _]; subst.
    apply Hin. now left.
Qed.

(** C2: in variant A, after three creations and the deletion of item 2,
    the next creation returns id 3 although an item with id 3 is already
    stored; both then sit in the store. *)
Theorem fastapi_count_based_id_collision (a b c d : FastApi.TodoCreate) :
  let s1 := snd (FastApi.create_todo a FastApi.initial) in
  let s2 := snd (FastApi.create_todo b s1) in
  let s3 := snd (FastApi.create_todo c s2) in
  let s4 := snd (FastApi.delete_todo 2 s3) in
  let new_todo := fst (FastApi.create_todo d s4) in
  fst (FastApi.delete_todo 2 s3) = FastApi.Return tt
  /\ FastApi.id new_todo = FastApi.get_next_id s4
  /\ FastApi.id new_todo = 3
  /\ (exists old, In old s4 /\ FastApi.id old = FastApi.id new_todo)
  /\ FastApi.ids (snd (FastApi.create_todo d s4)) = [1; 3; 3].
Proof.
  cbv zeta. unfold FastApi.create_todo, FastApi.initial. cbn [fst snd app].
  unfold FastApi.delete_todo. cbn [FastApi.find_todo_by_id find FastApi.id].
  change (FastApi.get_next_id []) with 1.
  change (FastApi.get_next_id [FastApi.mkTodo 1 (FastApi.create_task a) false])
    with 2.
  cbn [Z.eqb Pos.eqb fst snd FastApi.list_remove].
  change (FastApi.get_next_id
            [FastApi.mkTodo 1 (FastApi.create_task a) false;
             FastApi.mkTodo 2 (FastApi.create_task b) false]) with 3.
  cbn [Z.eqb Pos.eqb fst snd FastApi.list_remove].
  replace (FastApi.Todo_eqb
             (FastApi.mkTodo 1 (FastApi.create_task a) false)
             (FastApi.mkTodo 2 (FastApi.create_task b) false))
    with false by reflexivity.
  rewrite Todo_eqb_refl. cbn [app FastApi.id].
  repeat split.
  exists (FastApi.mkTodo 3 (FastApi.create_task c) false).
  split; [right; now left | reflexivity].
Qed.

(** C3, as stated, fails in variant A: the task made of one space is
    whitespace only, yet the creation is answered 201 and the item is
    stored. *)
Lemma fastapi_accepts_whitespace_task :
  blank (str_of " ") = true
  /\ FastApi.handle (FastApi.POST_todos (str_of " ")) FastApi.initial
     = ((201, FastApi.Item (FastApi.mkTodo 1 (str_of " ") false)),
        [FastApi.mkTodo 1 (str_of " ") false]).
Proof. split; reflexivity. Qed.

(** C3, amended: in variant B a JSON object whose task is empty or
    whitespace only is answered 400 "Task cannot be empty" and neither
    the list nor the counter changes; in variant A a task that is empty
    or longer than 200 characters is answered 422 and the list does not
    change, while every whitespace-only task of 1 to 200 characters is
    accepted: it is answered 201 and stored as it was sent, for any
    store. *)
Theorem blank_task_validation (t : str) :
  (forall d st,
      blank t = true ->
      Flask.dict_get (str_of "task") d = Some (Flask.JStr t) ->
      Flask.handle (Flask.POST_todos true (Some (Flask.JObj d))) st
      = (Flask.Reply (Flask.Error "Task cannot be empty") 400, st))
  /\ (forall todos,
         t = [] \/ 200 < len t ->
         FastApi.handle (FastApi.POST_todos t) todos
         = ((422, FastApi.ValidationError), todos))
  /\ (forall todos,
         blank t = true ->
         1 <= len t <= 200 ->
         let new_todo := FastApi.mkTodo (len todos + 1) t false in
         FastApi.handle (FastApi.POST_todos t) todos
         = ((201, FastApi.Item new_todo), todos ++ [new_todo])).
Proof.
  split; [|split].
  - intros d st Hblank Hget. simpl. unfold Flask.add_todo. simpl.
    unfold Flask.task_missing, Flask.contains, Flask.getitem.
    assert (Hd : Flask.truthy (Flask.JObj d) = true).
    { destruct d; [discriminate Hget | reflexivity]. }
    rewrite Hd, Hget. simpl.
    rewrite (strip_blank t Hblank). reflexivity.
  - intros todos Hbad. simpl. unfold FastApi.validate_TodoCreate.
    replace (FastApi.task_field_ok t) with false; [reflexivity|].
    symmetry. unfold FastApi.task_field_ok.
    apply andb_false_iff. destruct Hbad as [-> | Hlong].
    + left. reflexivity.
    + right. apply Z.leb_gt. exact Hlong.
  - intros todos _ [Hlo Hhi]. cbv zeta. simpl.
    unfold FastApi.validate_TodoCreate.
    replace (FastApi.task_field_ok t) with true; [reflexivity|].
    symmetry. unfold FastApi.task_field_ok.
    apply andb_true_iff. split; apply Z.leb_le; assumption.
Qed.

Lemma blank_task_validation_witness :
  Flask.handle
    (Flask.POST_todos true (Some (Flask.task_body (str_of "   "))))
    Flask.initial
  = (Flask.Reply (Flask.Error "Task cannot be empty") 400, Flask.initial)
  /\ FastApi.handle (FastApi.POST_todos []) FastApi.initial
     = ((422, FastApi.ValidationError), FastApi.initial)
  /\ FastApi.handle (FastApi.POST_todos (str_of "   "))
       [FastApi.mkTodo 1 (str_of "a") false]
     = ((201, FastApi.Item (FastApi.mkTodo 2 (str_of "   ") false)),
        [FastApi.mkTodo 1 (str_of "a") false;
         FastApi.mkTodo 2 (str_of "   ") false]).
Proof.
  split; [|split].
  - apply (proj1 (blank_task_validation (str_of "   "))); reflexivity.
  - apply (proj1 (proj2 (blank_task_validation []))). left. reflexivity.
  - apply (proj2 (proj2 (blank_task_validation (str_of "   "))));
      [reflexivity | unfold len; simpl; lia].
Defined.

(** C4, as stated, fails twice.  In variant B the created item has the
    keys "id" and "task" only: no "completed" entry is returned.  In
    variant A the store with ids 1 and 3, reached by three creations and
    the deletion of item 2, answers the creation of "buy milk" with id
    3, which is the id of a stored item. *)
Lemma create_buy_milk_not_as_stated :
  (exists new_todo st',
      Flask.handle
        (Flask.POST_todos true (Some (Flask.task_body (str_of "buy milk"))))
        Flask.initial
      = (Flask.Reply (Flask.Created new_todo) 201, st')
      /\ Flask.contains (Flask.jsonify_todo new_todo) (str_of "completed")
         = Flask.Val false)
  /\ (let reqs := [FastApi.POST_todos (str_of "a");
                   FastApi.POST_todos (str_of "b");
                   FastApi.POST_todos (str_of "c"); FastApi.DELETE_todo 2] in
      let todos := snd (FastApi.run reqs FastApi.initial) in
      exists new_todo todos',
        FastApi.handle (FastApi.POST_todos (str_of "buy milk")) todos
        = ((201, FastApi.Item new_todo), todos')
        /\ In (FastApi.id new_todo) (FastApi.ids todos)).
Proof.
  split.
  - eexists. eexists. split; reflexivity.
  - cbv zeta. eexists. eexists. split; [reflexivity|].
    right. now left.
Qed.

(** C4, amended.  Variant A: creating "buy milk" is answered 201 with
    an item of that task, [completed = false] and id [len(todos) + 1];
    the item is appended and the next listing contains it.  Variant B,
    in a reachable state: creating "buy milk" is answered 201 with an
    item of that task (it has no completed field) whose id is the
    counter and differs from every stored id; the item is appended and
    the next listing contains it. *)
Theorem create_buy_milk (todos : list FastApi.Todo) (st : Flask.state)
    (d : list (str * Flask.json)) :
  Flask.reachable st ->
  Flask.dict_get (str_of "task") d = Some (Flask.JStr (str_of "buy milk")) ->
  (let new_todo :=
     FastApi.mkTodo (len todos + 1) (str_of "buy milk") false in
   FastApi.handle (FastApi.POST_todos (str_of "buy milk")) todos
   = ((201, FastApi.Item new_todo), todos ++ [new_todo])
   /\ exists l,
        fst (FastApi.handle FastApi.GET_todos (todos ++ [new_todo]))
        = (200, FastApi.Items l)
        /\ In new_todo l)
  /\ (let new_todo := Flask.mkTodo (Flask.next_id st) (str_of "buy milk") in
      let st' := Flask.mkState (Flask.todos st ++ [new_todo])
                               (Flask.next_id st + 1) in
      Flask.handle (Flask.POST_todos true (Some (Flask.JObj d))) st
      = (Flask.Reply (Flask.Created new_todo) 201, st')
      /\ Flask.jsonify_todo new_todo
         = Flask.JObj [(str_of "id", Flask.JInt (Flask.next_id st));
                       (str_of "task", Flask.JStr (str_of "buy milk"))]
      /\ ~ In (Flask.id new_todo) (Flask.ids (Flask.todos st))
      /\ exists l,
           fst (Flask.handle Flask.GET_todos st')
           = Flask.Reply (Flask.Listing l) 200
           /\ In new_todo l).
Proof.
  intros Hreach Hget. split; cbv zeta.
  - split; [reflexivity|].
    eexists. split; [reflexivity|].
    apply in_or_app. right. now left.
  - split; [|split; [reflexivity|split]].
    + simpl. unfold Flask.add_todo. simpl.
      unfold Flask.task_missing, Flask.contains, Flask.getitem.
      assert (Hd : Flask.truthy (Flask.JObj d) = true).
      { destruct d; [discriminate Hget | reflexivity]. }
      rewrite Hd, Hget. reflexivity.
    + apply counter_inv_fresh, reachable_counter_inv, Hreach.
    + eexists. split; [reflexivity|].
      apply in_or_app. right. now left.
Qed.

Lemma create_buy_milk_witness :
  FastApi.handle (FastApi.POST_todos (str_of "buy milk")) FastApi.initial
  = ((201, FastApi.Item (FastApi.mkTodo 1 (str_of "buy milk") false)),
     [FastApi.mkTodo 1 (str_of "buy milk") false])
  /\ Flask.handle
       (Flask.POST_todos true (Some (Flask.task_body (str_of "buy milk"))))
       Flask.initial
     = (Flask.Reply (Flask.Created (Flask.mkTodo 1 (str_of "buy milk"))) 201,
        Flask.mkState [Flask.mkTodo 1 (str_of "buy milk")] 2).
Proof.
  assert (Hreach : Flask.reachable Flask.initial) by (exists []; reflexivity).
  pose proof (create_buy_milk FastApi.initial Flask.initial
                [(str_of "task", Flask.JStr (str_of "buy milk"))]
                Hreach eq_refl) as [[HA _] [HB _]].
  split; [exact HA | exact HB].
Defined.

(** C5: in variant A, for any store and any id that no stored item
    carries, get, update (with any update model) and delete each raise
    the 404 [HTTPException], and the route answers 404. *)
Theorem fastapi_absent_id_not_found (todos : list FastApi.Todo) (todo_id : Z)
    (todo_update : FastApi.TodoUpdate) :
  ~ In todo_id (FastApi.ids todos) ->
  FastApi.get_todo todo_id todos
  = (FastApi.HTTPException 404 (FastApi.not_found_detail todo_id), todos)
  /\ FastApi.update_todo todo_id todo_update todos
     = (FastApi.HTTPException 404 (FastApi.not_found_detail todo_id), todos)
  /\ FastApi.delete_todo todo_id todos
     = (FastApi.HTTPException 404 (FastApi.not_found_detail todo_id), todos)
  /\ fst (fst (FastApi.handle (FastApi.GET_todo todo_id) todos)) = 404
  /\ fst (fst (FastApi.handle
                 (FastApi.PUT_todo todo_id
                    (FastApi.update_task todo_update)
                    (FastApi.update_completed todo_update)) todos))
     = match FastApi.validate_TodoUpdate
               (FastApi.update_task todo_update)
               (FastApi.update_completed todo_update) with
       | Some _ => 404
       | None => 422
       end
  /\ fst (fst (FastApi.handle (FastApi.DELETE_todo todo_id) todos)) = 404.
Proof.
  intros Habs. cbv zeta.
  pose proof (find_todo_by_id_absent _ _ Habs) as Hf.
  unfold FastApi.handle, FastApi.respond, FastApi.get_todo,
    FastApi.update_todo, FastApi.delete_todo.
  rewrite Hf. cbn [fst snd].
  repeat split.
  destruct (FastApi.validate_TodoUpdate _ _); reflexivity.
Qed.

Lemma fastapi_absent_id_not_found_witness :
  let todos := [FastApi.mkTodo 1 (str_of "a") false] in
  FastApi.get_todo 999 todos
  = (FastApi.HTTPException 404 "Todo with ID 999 not found", todos)
  /\ FastApi.update_todo 999 (FastApi.mkTodoUpdate None (Some true)) todos
     = (FastApi.HTTPException 404 "Todo with ID 999 not found", todos)
  /\ FastApi.delete_todo 999 todos
     = (FastApi.HTTPException 404 "Todo with ID 999 not found", todos).
Proof.
  assert (Habs : ~ In 999 (FastApi.ids [FastApi.mkTodo 1 (str_of "a") false])).
  { simpl. intros [H|[]]. discriminate H. }
  pose proof (fastapi_absent_id_not_found
                [FastApi.mkTodo 1 (str_of "a") false] 999
                (FastApi.mkTodoUpdate None (Some true)) Habs)
    as (Hg & Hu & Hd & _).
  cbv zeta. repeat split; assumption.
Defined.

(** X22: in variant A, when the id is in the store, the update acts on
    the item the lookup finds (the first one carrying the id) and on
    nothing else.  Supplying only [completed = true] returns and stores
    that item with the same id, the same task and [completed = true];
    for any update model a field left out keeps its value, a field
    supplied takes the new one, and the id stays. *)
Theorem fastapi_partial_update (todos : list FastApi.Todo) (todo_id : Z)
    (todo_update : FastApi.TodoUpdate) :
  In todo_id (FastApi.ids todos) ->
  exists todo before after,
    todos = before ++ todo :: after
    /\ FastApi.find_todo_by_id todo_id todos = Some todo
    /\ FastApi.id todo = todo_id
    /\ (let todo' := FastApi.mkTodo (FastApi.id todo) (FastApi.task todo) true in
        FastApi.update_todo todo_id (FastApi.mkTodoUpdate None (Some true)) todos
        = (FastApi.Return todo', before ++ todo' :: after)
        /\ FastApi.find_todo_by_id todo_id (before ++ todo' :: after)
           = Some todo')
    /\ (let todo' :=
          FastApi.mkTodo (FastApi.id todo)
            (match FastApi.update_task todo_update with
             | Some t => t
             | None => FastApi.task todo
             end)
            (match FastApi.update_completed todo_update with
             | Some c => c
             | None => FastApi.completed todo
             end) in
        FastApi.update_todo todo_id todo_update todos
        = (FastApi.Return todo', before ++ todo' :: after)
        /\ FastApi.find_todo_by_id todo_id (before ++ todo' :: after)
           = Some todo').
Proof.
  intros Hin.
  destruct (find_todo_by_id_present _ _ Hin) as [todo Hf].
  destruct (find_todo_by_id_sound _ _ _ Hf) as [_ Hid].
  destruct (mutate_found_spec todo_id (fun x => x) todos todo Hf)
    as (before & after & Hsplit & Hno & _).
  exists todo, before, after.
  assert (Hupd : forall u,
             FastApi.update_todo todo_id u todos
             = (FastApi.Return (FastApi.apply_update u todo),
                before ++ FastApi.apply_update u todo :: after)
             /\ FastApi.find_todo_by_id todo_id
                  (before ++ FastApi.apply_update u todo :: after)
                = Some (FastApi.apply_update u todo)).
  { intros u. unfold FastApi.update_todo. rewrite Hf. split.
    - f_equal.
      destruct (mutate_found_spec todo_id (FastApi.apply_update u) todos todo Hf)
        as (b' & a' & Hsplit' & Hno' & ->).
      clear - Hsplit Hsplit' Hno Hno' Hid.
      rewrite Hsplit in Hsplit'. clear Hsplit. unfold FastApi.ids in *.
      revert b' Hsplit' Hno'.
      induction before as [|x before IH]; intros [|y b'] E Hno'; simpl in *.
      + now injection E as ->.
      + injection E as <- _. tauto.
      + injection E as -> _. tauto.
      + injection E as <- E. f_equal. apply IH; tauto.
    - rewrite (find_todo_by_id_skip _ _ _ Hno).
      unfold FastApi.find_todo_by_id. simpl.
      now rewrite apply_update_id, Hid, Z.eqb_refl. }
  repeat split; try assumption.
  - apply (Hupd (FastApi.mkTodoUpdate None (Some true))).
  - apply (Hupd (FastApi.mkTodoUpdate None (Some true))).
  - destruct (Hupd todo_update) as [-> _]. unfold FastApi.apply_update.
    destruct todo_update as [[t|] [c|]]; destruct todo; reflexivity.
  - destruct (Hupd todo_update) as [_ H].
    unfold FastApi.apply_update in H.
    destruct todo_update as [[t|] [c|]]; destruct todo; exact H.
Qed.

Lemma fastapi_partial_update_witness :
  FastApi.update_todo 2 (FastApi.mkTodoUpdate None (Some true))
    [FastApi.mkTodo 1 (str_of "a") false; FastApi.mkTodo 2 (str_of "b") false]
  = (FastApi.Return (FastApi.mkTodo 2 (str_of "b") true),
     [FastApi.mkTodo 1 (str_of "a") false; FastApi.mkTodo 2 (str_of "b") true]).
Proof.
  assert (Hin : In 2 (FastApi.ids [FastApi.mkTodo 1 (str_of "a") false;
                                   FastApi.mkTodo 2 (str_of "b") false])).
  { simpl. right. left. reflexivity. }
  destruct (fastapi_partial_update _ 2
              (FastApi.mkTodoUpdate None (Some true)) Hin)
    as (todo & before & after & Hsplit & Hfind & _ & [Hupd _] & _).
  injection Hfind as <-. rewrite Hupd. f_equal.
  destruct before as [|x [|y before]]; simpl in Hsplit.
  - discriminate Hsplit.
  - injection Hsplit as <- <-. reflexivity.
  - injection Hsplit as _ _ Hsplit. destruct before; discriminate Hsplit.
Defined.

(** C6 (variant A breaks it on a reachable store): after create,
    create, create, delete 2, create the store holds the items
    {3, "c"} and {3, "d"}.  The update of the id of {3, "d"} with only
    [completed = true] returns and rewrites {3, "c"}: the item
    {3, "d"} is not the one returned and stays in the store with
    [completed = false]. *)
Theorem fastapi_update_misses_item :
  let reqs := [FastApi.POST_todos (str_of "a"); FastApi.POST_todos (str_of "b");
               FastApi.POST_todos (str_of "c"); FastApi.DELETE_todo 2;
               FastApi.POST_todos (str_of "d")] in
  let todos := snd (FastApi.run reqs FastApi.initial) in
  let a := FastApi.mkTodo 1 (str_of "a") false in
  let c' := FastApi.mkTodo 3 (str_of "c") true in
  let d := FastApi.mkTodo 3 (str_of "d") false in
  FastApi.reachable todos
  /\ In d todos
  /\ FastApi.update_todo (FastApi.id d)
       (FastApi.mkTodoUpdate None (Some true)) todos
     = (FastApi.Return c', [a; c'; d])
  /\ FastApi.handle (FastApi.PUT_todo (FastApi.id d) None (Some true)) todos
     = ((200, FastApi.Item c'), [a; c'; d])
  /\ FastApi.task c' <> FastApi.task d
  /\ ~ In (FastApi.mkTodo 3 (str_of "d") true) [a; c'; d].
Proof.
  cbv zeta. split; [eexists; reflexivity|].
  split; [right; right; left; reflexivity|].
  split; [reflexivity|]. split; [reflexivity|].
  split; [discriminate|].
  intros [H|[H|[H|[]]]]; discriminate H.
Qed.

(** C7 (variant A breaks it on a reachable store): after create,
    create, create, delete 2, create the store holds two items with id
    3; deleting id 3 succeeds, yet the list still holds an item with id
    3 and getting id 3 returns it. *)
Theorem fastapi_delete_leaves_same_id :
  let reqs := [FastApi.POST_todos (str_of "a"); FastApi.POST_todos (str_of "b");
               FastApi.POST_todos (str_of "c"); FastApi.DELETE_todo 2;
               FastApi.POST_todos (str_of "d")] in
  let todos := snd (FastApi.run reqs FastApi.initial) in
  let todos' := snd (FastApi.delete_todo 3 todos) in
  FastApi.reachable todos
  /\ In 3 (FastApi.ids todos)
  /\ fst (FastApi.delete_todo 3 todos) = FastApi.Return tt
  /\ fst (FastApi.get_todos todos')
     = [FastApi.mkTodo 1 (str_of "a") false; FastApi.mkTodo 3 (str_of "d") false]
  /\ fst (FastApi.get_todo 3 todos')
     = FastApi.Return (FastApi.mkTodo 3 (str_of "d") false).
Proof.
  cbv zeta. split; [eexists; reflexivity|].
  split; [right; left; reflexivity|].
  repeat split.
Qed.

(** C8: a failed operation changes nothing.  Variant A: whenever a
    route answers with an error status (422 from validation, 404 from a
    lookup), the list is the one before the call.  Variant B: whenever
    the reply carries an error body or the handler raises, the list and
    the counter are the ones before the call. *)
Theorem failure_leaves_state_unchanged
    (reqA : FastApi.request) (todos : list FastApi.Todo)
    (reqB : Flask.request) (st : Flask.state) :
  (400 <= fst (fst (FastApi.handle reqA todos)) ->
   snd (FastApi.handle reqA todos) = todos)
  /\ (forall error status,
         fst (Flask.handle reqB st) = Flask.Reply (Flask.Error error) status ->
         snd (Flask.handle reqB st) = st)
  /\ (forall e,
         fst (Flask.handle reqB st) = Flask.Raised e ->
         snd (Flask.handle reqB st) = st).
Proof.
  split; [|split].
  - unfold FastApi.handle, FastApi.respond, FastApi.unprocessable,
      FastApi.get_todos, FastApi.create_todo, FastApi.get_todo,
      FastApi.update_todo, FastApi.delete_todo, FastApi.health_check,
      FastApi.HTTP_200_OK, FastApi.HTTP_201_CREATED,
      FastApi.HTTP_204_NO_CONTENT, FastApi.HTTP_404_NOT_FOUND.
    destruct reqA as [| |raw_task|todo_id|todo_id raw_task raw_completed
                      |todo_id|]; cbn [fst snd]; try reflexivity; try lia.
    + destruct (FastApi.validate_TodoCreate raw_task); cbn [fst snd];
        [lia | reflexivity].
    + destruct (FastApi.find_todo_by_id todo_id todos); reflexivity.
    + destruct (FastApi.validate_TodoUpdate raw_task raw_completed);
        [|reflexivity].
      destruct (FastApi.find_todo_by_id todo_id todos); cbn [fst snd];
        [lia | reflexivity].
    + destruct (FastApi.find_todo_by_id todo_id todos); cbn [fst snd];
        [lia | reflexivity].
  - intros error status H.
    destruct (handle_cases reqB st) as [[_ E]|[task E]]; [exact E|].
    rewrite E in H. discriminate H.
  - intros e H.
    destruct (handle_cases reqB st) as [[_ E]|[task E]]; [exact E|].
    rewrite E in H. discriminate H.
Qed.

Lemma failure_leaves_state_unchanged_witness :
  snd (FastApi.handle (FastApi.DELETE_todo 999)
         [FastApi.mkTodo 1 (str_of "a") false])
  = [FastApi.mkTodo 1 (str_of "a") false]
  /\ snd (Flask.handle
            (Flask.POST_todos true (Some (Flask.task_body (str_of " "))))
            Flask.initial)
     = Flask.initial.
Proof.
  pose proof (failure_leaves_state_unchanged
                (FastApi.DELETE_todo 999) [FastApi.mkTodo 1 (str_of "a") false]
                (Flask.POST_todos true (Some (Flask.task_body (str_of " "))))
                Flask.initial) as (HA & HB & _).
  split.
  - apply HA. vm_compute. discriminate.
  - apply (HB "Task cannot be empty"%string 400). reflexivity.
Defined.

(** C9: in variant B the counter starts at 1; a request moves it by
    exactly one when it is answered with a created item and leaves it
    alone otherwise; the ids handed out by any run from the start are
    1, 2, 3, ... in order, the counter ends one past their number, and
    no id is handed out twice. *)
Theorem flask_counter_monotonic (reqs : list Flask.request) :
  Flask.next_id Flask.initial = 1
  /\ (forall req st,
         Flask.next_id (snd (Flask.handle req st))
         = match Flask.created_id (fst (Flask.handle req st)) with
           | Some i => i + 1
           | None => Flask.next_id st
           end
         /\ (Flask.created_id (fst (Flask.handle req st)) = None
             \/ Flask.created_id (fst (Flask.handle req st))
                = Some (Flask.next_id st)))
  /\ (let created := Flask.created_ids (fst (Flask.run reqs Flask.initial)) in
      created = Flask.count_from 1 (List.length created)
      /\ Flask.next_id (snd (Flask.run reqs Flask.initial)) = 1 + len created
      /\ NoDup created).
Proof.
  split; [reflexivity|]. split.
  - intros req st.
    destruct (handle_cases req st) as [[Hnone Hst]|[task Hmk]].
    + rewrite Hnone, Hst. split; [reflexivity | now left].
    + rewrite Hmk. simpl. split; [reflexivity | now right].
  - cbv zeta. destruct (run_created_ids reqs Flask.initial) as [Hc Hn].
    cbv zeta in Hc, Hn. change (Flask.next_id Flask.initial) with 1 in *.
    repeat split; try assumption.
    rewrite Hc. apply count_from_NoDup.
Qed.

(** C10: in variant A the health check reports "healthy", version
    "1.0.0" and the number of stored items, for any store, and leaves
    the store as it was. *)
Theorem fastapi_health_check (todos : list FastApi.Todo) :
  let h := fst (FastApi.health_check todos) in
  FastApi.status h = "healthy"%string
  /\ FastApi.version h = "1.0.0"%string
  /\ FastApi.todo_count h = Z.of_nat (List.length todos)
  /\ snd (FastApi.health_check todos) = todos
  /\ FastApi.handle FastApi.GET_health todos
     = ((200, FastApi.HealthInfo h), todos).
Proof. cbv zeta. repeat split. Qed.

(** * Further properties of variant A *)

Section FastApiMore.
Import FastApi.

Lemma fastapi_run_cons (req : request) (reqs : list request)
    (todos : list Todo) :
  run (req :: reqs) todos
  = (fst (handle req todos) :: fst (run reqs (snd (handle req todos))),
     snd (run reqs (snd (handle req todos)))).
Proof.
  simpl. destruct (handle req todos) as [resp todos']. simpl.
  now destruct (run reqs todos').
Qed.

Lemma mutate_found_ids (todo_id : Z) (f : Todo -> Todo) (todos : list Todo) :
  (forall x, id (f x) = id x) ->
  ids (mutate_found todo_id f todos) = ids todos.
Proof.
  intros Hf. unfold ids.
  induction todos as [|x rest IH]; simpl; [reflexivity|].
  destruct (id x =? todo_id); simpl; [now rewrite Hf | now rewrite IH].
Qed.

Lemma mutate_found_length (todo_id : Z) (f : Todo -> Todo)
    (todos : list Todo) :
  List.length (mutate_found todo_id f todos) = List.length todos.
Proof.
  induction todos as [|x rest IH]; simpl; [reflexivity|].
  destruct (id x =? todo_id); simpl; [reflexivity | now rewrite IH].
Qed.

Lemma update_todo_ids (todo_id : Z) (todo_update : TodoUpdate)
    (todos : list Todo) :
  ids (snd (update_todo todo_id todo_update todos)) = ids todos.
Proof.
  unfold update_todo. destruct (find_todo_by_id todo_id todos); simpl;
    [|reflexivity].
  apply mutate_found_ids. intros x. apply apply_update_id.
Qed.

Lemma ids_length (todos : list Todo) :
  List.length (ids todos) = List.length todos.
Proof. apply length_map. Qed.

Lemma sequential_handle (req : request) (todos : list Todo) :
  match req with DELETE_todo _ => False | _ => True end ->
  sequential todos -> sequential (snd (handle req todos)).
Proof.
  intros Hreq Hseq.
  destruct req as [| |raw_task|todo_id|todo_id raw_task raw_completed
                   |todo_id|]; simpl; try exact Hseq; try contradiction.
  - destruct (validate_TodoCreate raw_task) as [todo|]; simpl; [|exact Hseq].
    unfold sequential, ids in *. rewrite map_app, length_app, Hseq. simpl.
    rewrite Nat.add_1_r, seq_S, map_app. simpl.
    unfold get_next_id, len. do 2 f_equal. lia.
  - unfold respond, get_todo.
    destruct (find_todo_by_id todo_id todos); exact Hseq.
  - destruct (validate_TodoUpdate raw_task raw_completed) as [u|];
      [|exact Hseq].
    assert (E : snd (respond HTTP_200_OK Item (update_todo todo_id u todos))
                = snd (update_todo todo_id u todos)).
    { unfold respond. now destruct (fst (update_todo todo_id u todos)). }
    rewrite E. unfold sequential.
    rewrite update_todo_ids, <- (ids_length (snd _)), update_todo_ids,
      ids_length.
    exact Hseq.
Qed.

Lemma sequential_run (reqs : list request) (todos : list Todo) :
  Forall (fun req => match req with DELETE_todo _ => False | _ => True end)
    reqs ->
  sequential todos -> sequential (snd (run reqs todos)).
Proof.
  revert todos. induction reqs as [|req reqs IH]; intros todos Hall Hseq;
    [exact Hseq|].
  inversion Hall as [|? ? Hreq Hrest]; subst.
  rewrite fastapi_run_cons. simpl. apply IH; [assumption|].
  now apply sequential_handle.
Qed.

Lemma sequential_NoDup (todos : list Todo) :
  sequential todos -> NoDup (ids todos).
Proof.
  intros ->. apply Finite.Injective_map_NoDup; [|apply seq_NoDup].
  intros a b. apply Nat2Z.inj.
Qed.

End FastApiMore.

Section FastApiTheorems.
Import FastApi.

(** X1: as long as no delete request is served, the ids in the store
    are 1, 2, ..., n in creation order, hence pairwise distinct. *)
Theorem fastapi_no_delete_ids_sequential (reqs : list request) :
  Forall (fun req => match req with DELETE_todo _ => False | _ => True end)
    reqs ->
  let todos := snd (run reqs initial) in
  ids todos = map Z.of_nat (seq 1 (List.length todos))
  /\ NoDup (ids todos).
Proof.
  intros Hall. cbv zeta.
  assert (Hseq : sequential (snd (run reqs initial))).
  { apply sequential_run; [exact Hall | reflexivity]. }
  split; [exact Hseq | now apply sequential_NoDup].
Qed.

Lemma fastapi_no_delete_ids_sequential_witness :
  ids (snd (run [POST_todos (str_of "a"); PUT_todo 1 None (Some true);
                 POST_todos (str_of "b"); GET_todos] initial))
  = [1; 2].
Proof.
  refine (proj1 (fastapi_no_delete_ids_sequential
                   [POST_todos (str_of "a"); PUT_todo 1 None (Some true);
                    POST_todos (str_of "b"); GET_todos] _)).
  repeat constructor.
Defined.

(** X2: a delete of an id that is in the store succeeds and takes out
    exactly the first item carrying that id; every other item stays, in
    order. *)
Theorem fastapi_delete_removes_first (todo_id : Z) (todos : list Todo) :
  In todo_id (ids todos) ->
  exists before todo after,
    todos = before ++ todo :: after
    /\ id todo = todo_id
    /\ ~ In todo_id (ids before)
    /\ delete_todo todo_id todos = (Return tt, before ++ after).
Proof.
  intros Hin. destruct (find_todo_by_id_present _ _ Hin) as [todo Hf].
  destruct (find_todo_by_id_sound _ _ _ Hf) as [_ Hid].
  destruct (list_remove_found _ _ _ Hf) as (before & after & E & Hno & Hrm).
  exists before, todo, after. unfold delete_todo. rewrite Hf, Hrm. tauto.
Qed.

Lemma fastapi_delete_removes_first_witness :
  let a := mkTodo 1 (str_of "a") false in
  let c := mkTodo 3 (str_of "c") false in
  let d := mkTodo 3 (str_of "d") false in
  exists before todo after,
    [a; c; d] = before ++ todo :: after
    /\ id todo = 3
    /\ ~ In 3 (ids before)
    /\ delete_todo 3 [a; c; d] = (Return tt, before ++ after).
Proof.
  cbv zeta. apply fastapi_delete_removes_first.
  simpl. right. left. reflexivity.
Defined.

(** X3: when the ids in the store are pairwise distinct, deleting a
    stored id leaves no item with that id: a following get, update or
    delete of the id is answered 404. *)
Theorem fastapi_delete_unique_gone (todo_id : Z) (todos : list Todo)
    (todo_update : TodoUpdate) :
  NoDup (ids todos) -> In todo_id (ids todos) ->
  let todos' := snd (delete_todo todo_id todos) in
  fst (delete_todo todo_id todos) = Return tt
  /\ ~ In todo_id (ids todos')
  /\ List.length todos = S (List.length todos')
  /\ get_todo todo_id todos'
     = (HTTPException 404 (not_found_detail todo_id), todos')
  /\ update_todo todo_id todo_update todos'
     = (HTTPException 404 (not_found_detail todo_id), todos')
  /\ delete_todo todo_id todos'
     = (HTTPException 404 (not_found_detail todo_id), todos').
Proof.
  intros Hnd Hin. cbv zeta.
  destruct (delete_todo_unique _ _ Hnd Hin) as (Hok & Habs & _).
  assert (Hlen : List.length todos
                 = S (List.length (snd (delete_todo todo_id todos)))).
  { unfold delete_todo.
    destruct (find_todo_by_id_present _ _ Hin) as [todo Hf]. rewrite Hf.
    destruct (list_remove_found _ _ _ Hf) as (before & after & -> & _ & ->).
    simpl. rewrite !length_app. simpl. lia. }
  pose proof (find_todo_by_id_absent _ _ Habs) as Hf.
  set (todos' := snd (delete_todo todo_id todos)) in *.
  unfold get_todo, update_todo. unfold delete_todo at 2. rewrite Hf.
  repeat split; assumption.
Qed.

Lemma fastapi_delete_unique_gone_witness :
  let a := mkTodo 1 (str_of "a") false in
  let b := mkTodo 2 (str_of "b") false in
  snd (delete_todo 1 [a; b]) = [b]
  /\ get_todo 1 (snd (delete_todo 1 [a; b]))
     = (HTTPException 404 "Todo with ID 1 not found",
        snd (delete_todo 1 [a; b])).
Proof.
  cbv zeta.
  assert (Hnd : NoDup (ids [mkTodo 1 (str_of "a") false;
                            mkTodo 2 (str_of "b") false])).
  { simpl. constructor; [intros [H|[]]; discriminate H|].
    constructor; [intros []|constructor]. }
  assert (Hin : In 1 (ids [mkTodo 1 (str_of "a") false;
                           mkTodo 2 (str_of "b") false])).
  { left. reflexivity. }
  destruct (fastapi_delete_unique_gone 1 _ (mkTodoUpdate None None) Hnd Hin)
    as (_ & _ & _ & Hget & _).
  split; [reflexivity | exact Hget].
Defined.

Lemma mutate_found_at (todo_id : Z) (f : Todo -> Todo)
    (before after : list Todo) (x : Todo) :
  ~ In todo_id (ids before) -> id x = todo_id ->
  mutate_found todo_id f (before ++ x :: after) = before ++ f x :: after.
Proof.
  unfold ids. intros Hno Hid.
  induction before as [|y before IH]; simpl in *.
  - now rewrite Hid, Z.eqb_refl.
  - destruct (Z.eqb_spec (id y) todo_id) as [E|E]; [tauto|].
    rewrite IH; tauto.
Qed.

Lemma update_todo_split (todo_id : Z) (todo_update : TodoUpdate)
    (before after : list Todo) (x : Todo) :
  ~ In todo_id (ids before) -> id x = todo_id ->
  update_todo todo_id todo_update (before ++ x :: after)
  = (Return (apply_update todo_update x),
     before ++ apply_update todo_update x :: after).
Proof.
  intros Hno Hid. unfold update_todo.
  rewrite (find_todo_by_id_skip _ _ _ Hno).
  unfold find_todo_by_id at 1. simpl. rewrite Hid, Z.eqb_refl.
  now rewrite mutate_found_at.
Qed.

Lemma apply_update_twice (todo_update : TodoUpdate) (todo : Todo) :
  apply_update todo_update (apply_update todo_update todo)
  = apply_update todo_update todo.
Proof.
  unfold apply_update.
  destruct (update_task todo_update), (update_completed todo_update);
    reflexivity.
Qed.

Lemma find_todo_by_id_drop (other : Z) (before after : list Todo) (x : Todo) :
  id x <> other ->
  find_todo_by_id other (before ++ x :: after)
  = find_todo_by_id other (before ++ after).
Proof.
  unfold find_todo_by_id. intros Hx.
  induction before as [|y before IH]; simpl.
  - destruct (Z.eqb_spec (id x) other); [contradiction | reflexivity].
  - destruct (id y =? other); [reflexivity | exact IH].
Qed.

(** X4: an update never changes which ids are stored, their order or
    their number, whatever the id and the fields it is given. *)
Theorem fastapi_update_keeps_ids (todo_id : Z) (todo_update : TodoUpdate)
    (todos : list Todo) :
  let todos' := snd (update_todo todo_id todo_update todos) in
  ids todos' = ids todos /\ List.length todos' = List.length todos.
Proof.
  cbv zeta. split; [apply update_todo_ids|].
  rewrite <- (ids_length (snd _)), update_todo_ids. apply ids_length.
Qed.

(** X5: updates are idempotent: sending the same update a second time
    returns the same answer and leaves the store as the first one
    did. *)
Theorem fastapi_update_idempotent (todo_id : Z) (todo_update : TodoUpdate)
    (todos : list Todo) :
  update_todo todo_id todo_update
    (snd (update_todo todo_id todo_update todos))
  = update_todo todo_id todo_update todos.
Proof.
  destruct (find_todo_by_id todo_id todos) as [todo|] eqn:Hf.
  - destruct (find_todo_by_id_sound _ _ _ Hf) as [_ Hid].
    destruct (list_remove_found _ _ _ Hf) as (before & after & -> & Hno & _).
    rewrite (update_todo_split _ _ _ _ _ Hno Hid). simpl.
    rewrite update_todo_split;
      [|exact Hno | now rewrite apply_update_id].
    now rewrite apply_update_twice.
  - unfold update_todo. rewrite Hf. simpl. now rewrite Hf.
Qed.

(** X6: an update that supplies no field changes nothing: the store
    stays as it is and the answer is the one a get of the same id
    gives. *)
Theorem fastapi_empty_update_is_get (todo_id : Z) (todos : list Todo) :
  update_todo todo_id (mkTodoUpdate None None) todos = get_todo todo_id todos.
Proof.
  unfold get_todo.
  destruct (find_todo_by_id todo_id todos) as [todo|] eqn:Hf.
  - destruct (find_todo_by_id_sound _ _ _ Hf) as [_ Hid].
    destruct (list_remove_found _ _ _ Hf) as (before & after & -> & Hno & _).
    now rewrite (update_todo_split _ _ _ _ _ Hno Hid).
  - unfold update_todo. now rewrite Hf.
Qed.

(** X7: updating or deleting one id does not disturb the others: the
    lookup of any other id finds the same item before and after. *)
Theorem fastapi_other_ids_untouched (todo_id other : Z)
    (todo_update : TodoUpdate) (todos : list Todo) :
  other <> todo_id ->
  find_todo_by_id other (snd (update_todo todo_id todo_update todos))
  = find_todo_by_id other todos
  /\ find_todo_by_id other (snd (delete_todo todo_id todos))
     = find_todo_by_id other todos.
Proof.
  intros Hne.
  destruct (find_todo_by_id todo_id todos) as [todo|] eqn:Hf.
  - destruct (find_todo_by_id_sound _ _ _ Hf) as [_ Hid].
    pose proof (list_remove_found _ _ _ Hf)
      as (before & after & E & Hno & Hrm).
    unfold delete_todo. rewrite Hf. cbn [snd]. rewrite Hrm. subst todos.
    rewrite (update_todo_split _ _ _ _ _ Hno Hid). cbn [snd].
    rewrite !find_todo_by_id_drop; try (rewrite ?apply_update_id; congruence).
    split; reflexivity.
  - unfold update_todo, delete_todo. rewrite Hf. split; reflexivity.
Qed.

Lemma fastapi_other_ids_untouched_witness :
  let a := mkTodo 1 (str_of "a") false in
  let b := mkTodo 2 (str_of "b") false in
  find_todo_by_id 2 (snd (update_todo 1 (mkTodoUpdate None (Some true)) [a; b]))
  = Some b
  /\ find_todo_by_id 2 (snd (delete_todo 1 [a; b])) = Some b.
Proof.
  cbv zeta.
  assert (Hne : 2 <> 1) by discriminate.
  destruct (fastapi_other_ids_untouched 1 2 (mkTodoUpdate None (Some true))
              [mkTodo 1 (str_of "a") false; mkTodo 2 (str_of "b") false] Hne)
    as [Hu Hd].
  split; [exact Hu | exact Hd].
Defined.

Lemma handle_length (req : request) (todos : list Todo) :
  len (snd (handle req todos))
  = len todos
    + (if fst (fst (handle req todos)) =? 201 then 1
       else if fst (fst (handle req todos)) =? 204 then -1
       else 0).
Proof.
  destruct req as [| |raw_task|todo_id|todo_id raw_task raw_completed
                   |todo_id|]; simpl; try lia.
  - destruct (validate_TodoCreate raw_task); simpl; [apply len_app | lia].
  - unfold respond, get_todo.
    destruct (find_todo_by_id todo_id todos); simpl; lia.
  - destruct (validate_TodoUpdate raw_task raw_completed) as [u|];
      simpl; [|lia].
    unfold respond, update_todo.
    destruct (find_todo_by_id todo_id todos); simpl; [|lia].
    unfold len. rewrite mutate_found_length. lia.
  - unfold respond, delete_todo.
    destruct (find_todo_by_id todo_id todos) as [todo|] eqn:Hf; simpl; [|lia].
    destruct (list_remove_found _ _ _ Hf) as (before & after & -> & _ & ->).
    unfold len. rewrite !length_app. simpl. lia.
Qed.

(** The number of answers with a given status. *)
Lemma count_status_cons (code : Z) (resp : response) (resps : list response) :
  len (filter (fun r => fst r =? code) (resp :: resps))
  = (if fst resp =? code then 1 else 0)
    + len (filter (fun r => fst r =? code) resps).
Proof.
  simpl. destruct (fst resp =? code); unfold len; cbn [List.length]; lia.
Qed.

(** X8: the status of an answer tells how the store changed: one item
    more after a 201, one item less after a 204, the same number after
    any other answer. *)
Theorem fastapi_status_tells_length (req : request) (todos : list Todo) :
  let status := fst (fst (handle req todos)) in
  len (snd (handle req todos))
  = len todos + (if status =? 201 then 1 else if status =? 204 then -1 else 0).
Proof. apply handle_length. Qed.

(** X9: after any run from the empty store, the health check counts
    the 201 answers of the run minus its 204 answers. *)
Theorem fastapi_health_counts_run (reqs : list request) :
  let resps := fst (run reqs initial) in
  let todos := snd (run reqs initial) in
  todo_count (fst (health_check todos))
  = len (filter (fun r => fst r =? 201) resps)
    - len (filter (fun r => fst r =? 204) resps).
Proof.
  cbv zeta. cbn [health_check fst todo_count].
  assert (H : forall todos,
             len (snd (run reqs todos))
             = len todos
               + len (filter (fun r => fst r =? 201) (fst (run reqs todos)))
               - len (filter (fun r => fst r =? 204) (fst (run reqs todos)))).
  { induction reqs as [|req reqs IH]; intros todos.
    - simpl. unfold len. simpl. lia.
    - rewrite fastapi_run_cons. cbn [fst snd].
      rewrite IH, !count_status_cons, handle_length.
      destruct (Z.eqb_spec (fst (fst (handle req todos))) 201) as [E|E].
      + rewrite E. change (201 =? 201) with true.
        change (201 =? 204) with false. cbv iota. lia.
      + destruct (fst (fst (handle req todos)) =? 204); lia. }
  rewrite H. unfold initial, len. simpl. lia.
Qed.

Lemma ids_app (a b : list Todo) : ids (a ++ b) = ids a ++ ids b.
Proof. apply map_app. Qed.

(** The id at position [k] (from 0) is above [k]. *)
Lemma above_position_handle (req : request) (todos : list Todo) :
  (forall k i, nth_error (ids todos) k = Some i -> Z.of_nat k < i) ->
  forall k i,
    nth_error (ids (snd (handle req todos))) k = Some i -> Z.of_nat k < i.
Proof.
  intros Hinv.
  destruct req as [| |raw_task|todo_id|todo_id raw_task raw_completed
                   |todo_id|]; simpl; try exact Hinv.
  - destruct (validate_TodoCreate raw_task) as [todo|]; simpl;
      [|exact Hinv].
    intros k i. rewrite ids_app. simpl.
    destruct (Nat.lt_ge_cases k (List.length (ids todos))) as [Hk|Hk].
    + rewrite nth_error_app1 by exact Hk. apply Hinv.
    + rewrite nth_error_app2 by exact Hk.
      destruct (k - List.length (ids todos))%nat as [|m] eqn:Em; simpl.
      * intros [= <-]. unfold get_next_id, len.
        rewrite ids_length in *. lia.
      * destruct m; discriminate.
  - unfold respond, get_todo.
    destruct (find_todo_by_id todo_id todos); exact Hinv.
  - destruct (validate_TodoUpdate raw_task raw_completed) as [u|];
      [|exact Hinv].
    assert (E : snd (respond HTTP_200_OK Item (update_todo todo_id u todos))
                = snd (update_todo todo_id u todos)).
    { unfold respond. now destruct (fst (update_todo todo_id u todos)). }
    rewrite E, update_todo_ids. exact Hinv.
  - unfold respond, delete_todo.
    destruct (find_todo_by_id todo_id todos) as [todo|] eqn:Hf; simpl;
      [|exact Hinv].
    destruct (list_remove_found _ _ _ Hf) as (before & after & -> & _ & ->).
    intros k i. rewrite ids_app in *. simpl in Hinv.
    destruct (Nat.lt_ge_cases k (List.length (ids before))) as [Hk|Hk].
    + rewrite nth_error_app1 by exact Hk. intros H. apply Hinv.
      now rewrite nth_error_app1.
    + rewrite nth_error_app2 by exact Hk. intros H.
      specialize (Hinv (S k) i).
      rewrite nth_error_app2 in Hinv by lia.
      replace (S k - List.length (ids before))%nat
        with (S (k - List.length (ids before))) in Hinv by lia.
      simpl in Hinv. specialize (Hinv H). lia.
Qed.

(** X10: in every store reachable from the empty one, the item at
    position k (counting from 0) has an id above k; every stored id is
    therefore positive, and ids 0 and below are never found. *)
Theorem fastapi_reachable_ids_positive (todos : list Todo) (k : nat)
    (todo : Todo) :
  reachable todos ->
  nth_error todos k = Some todo ->
  Z.of_nat k < id todo /\ 1 <= id todo.
Proof.
  intros [reqs <-] Hnth.
  assert (H : forall todos0,
             (forall k i, nth_error (ids todos0) k = Some i -> Z.of_nat k < i) ->
             forall k i, nth_error (ids (snd (run reqs todos0))) k = Some i ->
                         Z.of_nat k < i).
  { clear Hnth.
    induction reqs as [|req reqs IH]; intros todos0 Hinv; [exact Hinv|].
    rewrite fastapi_run_cons. cbn [snd]. apply IH.
    now apply above_position_handle. }
  assert (Hk : Z.of_nat k < id todo).
  { apply (H initial).
    - intros k0 i. destruct k0; discriminate.
    - unfold ids. now rewrite nth_error_map, Hnth. }
  split; [exact Hk | lia].
Qed.

Lemma fastapi_reachable_ids_positive_witness :
  let todos := snd (run [POST_todos (str_of "a"); POST_todos (str_of "b");
                         POST_todos (str_of "c"); DELETE_todo 2;
                         POST_todos (str_of "d")] initial) in
  let d := mkTodo 3 (str_of "d") false in
  reachable todos /\ nth_error todos 2 = Some d
  /\ Z.of_nat 2 < id d /\ 1 <= id d.
Proof.
  cbv zeta.
  assert (Hreach : reachable
            (snd (run [POST_todos (str_of "a"); POST_todos (str_of "b");
                       POST_todos (str_of "c"); DELETE_todo 2;
                       POST_todos (str_of "d")] initial))).
  { eexists. reflexivity. }
  split; [exact Hreach|]. split; [reflexivity|].
  exact (fastapi_reachable_ids_positive _ 2 (mkTodo 3 (str_of "d") false)
           Hreach eq_refl).
Defined.

Lemma find_todo_by_id_app (todo_id : Z) (a b : list Todo) :
  find_todo_by_id todo_id (a ++ b)
  = match find_todo_by_id todo_id a with
    | Some x => Some x
    | None => find_todo_by_id todo_id b
    end.
Proof.
  unfold find_todo_by_id. induction a as [|x a IH]; simpl; [reflexivity|].
  destruct (id x =? todo_id); [reflexivity | exact IH].
Qed.

(** X11: getting the id a creation just returned gives back the new
    item, unless an older item already carries that id: then the older
    item is returned and the new one cannot be reached by its id. *)
Theorem fastapi_get_after_create (todo : TodoCreate) (todos : list Todo) :
  let new_todo := fst (create_todo todo todos) in
  let todos' := snd (create_todo todo todos) in
  get_todo (id new_todo) todos'
  = match find_todo_by_id (get_next_id todos) todos with
    | Some older => (Return older, todos')
    | None => (Return new_todo, todos')
    end.
Proof.
  cbv zeta. unfold create_todo, get_todo. cbn [fst snd id].
  rewrite find_todo_by_id_app.
  destruct (find_todo_by_id _ todos) as [older|]; [reflexivity|].
  unfold find_todo_by_id. simpl. now rewrite Z.eqb_refl.
Qed.

(** X12: in a store whose ids are 1, ..., n, deleting any item other
    than the last and then creating an item hands out the id n again,
    which the last item still carries. *)
Theorem fastapi_delete_then_create_collides (todos : list Todo) (k : Z)
    (todo : TodoCreate) :
  sequential todos ->
  1 <= k < len todos ->
  let todos' := snd (delete_todo k todos) in
  let new_todo := fst (create_todo todo todos') in
  fst (delete_todo k todos) = Return tt
  /\ id new_todo = len todos
  /\ In (id new_todo) (ids todos')
  /\ ~ NoDup (ids (snd (create_todo todo todos'))).
Proof.
  intros Hseq Hk. cbv zeta.
  assert (Hin : forall i, 1 <= i <= len todos -> In i (ids todos)).
  { intros i Hi. rewrite Hseq. replace i with (Z.of_nat (Z.to_nat i)) by lia.
    apply in_map, in_seq. unfold len in Hi. lia. }
  destruct (find_todo_by_id_present k todos) as [x Hf]; [apply Hin; lia|].
  destruct (find_todo_by_id_sound _ _ _ Hf) as [_ Hid].
  pose proof (list_remove_found _ _ _ Hf) as (before & after & E & Hno & Hrm).
  unfold delete_todo. rewrite Hf. cbn [fst snd]. rewrite Hrm.
  assert (Hlen : get_next_id (before ++ after) = len todos).
  { subst todos. unfold get_next_id, len. rewrite !length_app. simpl. lia. }
  assert (Hlast : In (len todos) (ids (before ++ after))).
  { specialize (Hin (len todos)). subst todos.
    rewrite ids_app in *. simpl in Hin.
    apply in_or_app.
    destruct (in_app_or _ _ _ (Hin ltac:(lia))) as [H|[H|H]];
      [now left | lia | now right]. }
  unfold create_todo. cbn [fst snd id]. rewrite Hlen.
  repeat split; try assumption.
  rewrite ids_app. simpl. intros Hnd.
  apply NoDup_remove_2 in Hnd. rewrite app_nil_r in Hnd. contradiction.
Qed.

Lemma fastapi_delete_then_create_collides_witness :
  let todos := [mkTodo 1 (str_of "a") false; mkTodo 2 (str_of "b") false;
                mkTodo 3 (str_of "c") false] in
  let todos' := snd (delete_todo 1 todos) in
  id (fst (create_todo (mkTodoCreate (str_of "d")) todos')) = 3
  /\ In 3 (ids todos').
Proof.
  cbv zeta.
  assert (Hseq : sequential [mkTodo 1 (str_of "a") false;
                             mkTodo 2 (str_of "b") false;
                             mkTodo 3 (str_of "c") false]) by reflexivity.
  assert (Hk : 1 <= 1 < len [mkTodo 1 (str_of "a") false;
                             mkTodo 2 (str_of "b") false;
                             mkTodo 3 (str_of "c") false])
    by (unfold len; simpl; lia).
  destruct (fastapi_delete_then_create_collides _ 1
              (mkTodoCreate (str_of "d")) Hseq Hk) as (_ & Hid & Hin & _).
  split; [exact Hid | exact Hin].
Defined.

End FastApiTheorems.

(** * Further properties of variant B *)

Section StripFacts.

Lemma blank_lstrip (s : str) : blank (lstrip s) = true -> blank s = true.
Proof.
  induction s as [|c s IH]; simpl; [reflexivity|].
  destruct (isspace c) eqn:Hc; [exact IH|].
  simpl. now rewrite Hc.
Qed.

Lemma lstrip_nil (s : str) : lstrip s = [] -> blank s = true.
Proof.
  intros H. apply blank_lstrip. now rewrite H.
Qed.

Lemma blank_rev (s : str) : blank (rev s) = blank s.
Proof.
  unfold blank. induction s as [|c s IH]; simpl; [reflexivity|].
  rewrite forallb_app, IH. simpl. rewrite andb_true_r. apply andb_comm.
Qed.

Lemma strip_nil (s : str) : strip s = [] -> blank s = true.
Proof.
  unfold strip, rstrip. intros H.
  apply blank_lstrip. rewrite <- blank_rev. apply lstrip_nil.
  destruct (lstrip (rev (lstrip s))) as [|c r]; [reflexivity|].
  simpl in H. destruct (rev r); discriminate H.
Qed.

Lemma lstrip_idem (s : str) : lstrip (lstrip s) = lstrip s.
Proof.
  induction s as [|c s IH]; simpl; [reflexivity|].
  destruct (isspace c) eqn:Hc; [exact IH|].
  simpl. now rewrite Hc.
Qed.

Lemma lstrip_snoc (s : str) (c : char) :
  isspace c = false -> lstrip (s ++ [c]) = lstrip s ++ [c].
Proof.
  intros Hc. induction s as [|x s IH]; simpl.
  - now rewrite Hc.
  - destruct (isspace x); [exact IH | reflexivity].
Qed.

Lemma rstrip_cons (c : char) (s : str) :
  isspace c = false -> rstrip (c :: s) = c :: rstrip s.
Proof.
  intros Hc. unfold rstrip. simpl.
  rewrite (lstrip_snoc _ _ Hc), rev_app_distr. reflexivity.
Qed.

Lemma rstrip_idem (s : str) : rstrip (rstrip s) = rstrip s.
Proof.
  unfold rstrip. now rewrite rev_involutive, lstrip_idem.
Qed.

Lemma strip_idem (s : str) : strip (strip s) = strip s.
Proof.
  unfold strip.
  destruct (lstrip s) as [|c r] eqn:E; [reflexivity|].
  assert (Hc : isspace c = false).
  { clear - E. induction s as [|x s IH]; simpl in E; [discriminate|].
    destruct (isspace x) eqn:Hx; [auto|]. now injection E as -> _. }
  rewrite (rstrip_cons _ _ Hc). simpl. rewrite Hc.
  now rewrite (rstrip_cons _ _ Hc), rstrip_idem.
Qed.

End StripFacts.

Section FlaskTheorems.
Import Flask.

Lemma truthy_JStr (s : str) : truthy (JStr s) = false -> s = [].
Proof.
  simpl. intros H. apply negb_false_iff in H. now apply str_eqb_eq.
Qed.

(** What a created reply tells about the request. *)
Lemma add_todo_created (is_json : bool) (get_json : option json) (st st' : state)
    (new_todo : Todo) (status : Z) :
  add_todo is_json get_json st = (Reply (Created new_todo) status, st') ->
  is_json = true
  /\ exists d t,
       get_json = Some (JObj d)
       /\ dict_get (str_of "task") d = Some (JStr t)
       /\ blank t = false
       /\ new_todo = mkTodo (next_id st) (strip t)
       /\ status = 201
       /\ st' = mkState (todos st ++ [new_todo]) (next_id st + 1).
Proof.
  unfold add_todo. destruct is_json; simpl; [|discriminate].
  destruct get_json as [data|]; [|discriminate].
  unfold task_missing.
  destruct data as [|b|n|z|s|l|d]; simpl;
    try discriminate;
    try (destruct b; discriminate);
    try (destruct (n =? 0); discriminate);
    try (destruct z; discriminate).
  - destruct (negb (negb (str_eqb s []))); [discriminate|].
    destruct (negb (str_contains s (str_of "task"))); discriminate.
  - destruct l; [discriminate|]. simpl.
    destruct (negb _); discriminate.
  - destruct d as [|kv d]; [discriminate|]. cbn [negb].
    destruct (dict_get (str_of "task") (kv :: d)) as [v|] eqn:Hget;
      simpl; [|discriminate].
    destruct v as [| | | |t| |]; simpl; try discriminate.
    destruct (str_eqb (strip t) []) eqn:Hs; simpl; [discriminate|].
    intros [= <- <- <-]. split; [reflexivity|].
    exists (kv :: d), t. repeat split; try assumption.
    destruct (blank t) eqn:Hb; [|reflexivity].
    rewrite (strip_blank t Hb) in Hs. discriminate Hs.
Qed.

Lemma add_todo_string_task (d : list (str * json)) (t : str) (st : state) :
  dict_get (str_of "task") d = Some (JStr t) ->
  add_todo true (Some (JObj d)) st
  = if str_eqb (strip t) []
    then (Reply (Error "Task cannot be empty") 400, st)
    else (Reply (Created (mkTodo (next_id st) (strip t))) 201,
          mkState (todos st ++ [mkTodo (next_id st) (strip t)])
                  (next_id st + 1)).
Proof.
  intros Hget. unfold add_todo. simpl.
  unfold task_missing, contains, getitem.
  assert (Hd : truthy (JObj d) = true).
  { destruct d; [discriminate Hget | reflexivity]. }
  rewrite Hd, Hget. simpl.
  destruct (str_eqb (strip t) []); reflexivity.
Qed.

(** X13: variant B answers with a created item only when the request is
    JSON, its body is an object, the "task" entry is a string and that
    string is not blank; the item then carries the counter as id and
    the stripped string as task, and the status is 201. *)
Theorem flask_created_only_for_string_task (is_json : bool)
    (get_json : option json) (st st' : state) (new_todo : Todo) (status : Z) :
  add_todo is_json get_json st = (Reply (Created new_todo) status, st') ->
  is_json = true
  /\ exists d t,
       get_json = Some (JObj d)
       /\ dict_get (str_of "task") d = Some (JStr t)
       /\ blank t = false
       /\ new_todo = mkTodo (next_id st) (strip t)
       /\ status = 201
       /\ st' = mkState (todos st ++ [new_todo]) (next_id st + 1).
Proof. apply add_todo_created. Qed.

Lemma flask_created_only_for_string_task_witness :
  exists d t,
    Some (task_body (str_of " buy milk ")) = Some (JObj d)
    /\ dict_get (str_of "task") d = Some (JStr t)
    /\ blank t = false
    /\ mkTodo 1 (str_of "buy milk") = mkTodo (next_id initial) (strip t)
    /\ 201 = 201
    /\ mkState [mkTodo 1 (str_of "buy milk")] 2
       = mkState (todos initial ++ [mkTodo 1 (str_of "buy milk")])
                 (next_id initial + 1).
Proof.
  exact (proj2 (flask_created_only_for_string_task true
                  (Some (task_body (str_of " buy milk "))) initial
                  (mkState [mkTodo 1 (str_of "buy milk")] 2)
                  (mkTodo 1 (str_of "buy milk")) 201 eq_refl)).
Defined.

(** X14: in variant B, a JSON object whose "task" is a string with at
    least one non-whitespace character is always accepted: the answer
    is 201, the stored task is the string without its surrounding
    whitespace (never empty), the id is the counter, and the counter
    moves by one. *)
Theorem flask_nonblank_task_created (d : list (str * json)) (t : str)
    (st : state) :
  dict_get (str_of "task") d = Some (JStr t) ->
  blank t = false ->
  let new_todo := mkTodo (next_id st) (strip t) in
  handle (POST_todos true (Some (JObj d))) st
  = (Reply (Created new_todo) 201,
     mkState (todos st ++ [new_todo]) (next_id st + 1))
  /\ strip t <> []
  /\ strip (strip t) = strip t.
Proof.
  intros Hget Hb. cbv zeta.
  assert (Hne : strip t <> []).
  { intros E. apply strip_nil in E. congruence. }
  split; [|split; [exact Hne | apply strip_idem]].
  simpl. rewrite (add_todo_string_task _ _ _ Hget).
  destruct (str_eqb (strip t) []) eqn:E; [|reflexivity].
  apply str_eqb_eq in E. contradiction.
Qed.

Lemma flask_nonblank_task_created_witness :
  handle (POST_todos true (Some (task_body (str_of "  buy milk  ")))) initial
  = (Reply (Created (mkTodo 1 (str_of "buy milk"))) 201,
     mkState [mkTodo 1 (str_of "buy milk")] 2).
Proof.
  exact (proj1 (flask_nonblank_task_created
                  [(str_of "task", JStr (str_of "  buy milk  "))]
                  (str_of "  buy milk  ") initial eq_refl eq_refl)).
Defined.

(** X15: variant B answers 400 "Task field is required" and changes
    nothing when the JSON body is null, false, 0, 0.0, an empty string,
    an empty array or an empty object, and when it is an object without
    a "task" key. *)
Theorem flask_task_field_required (data : json) (st : state) :
  In data [JNull; JBool false; JInt 0; JReal true; JStr []; JArr []; JObj []]
  \/ (exists d, data = JObj d /\ dict_get (str_of "task") d = None) ->
  handle (POST_todos true (Some data)) st
  = (Reply (Error "Task field is required") 400, st).
Proof.
  intros [Hin | (d & -> & Hget)].
  - simpl in Hin.
    repeat (destruct Hin as [<- | Hin]; [reflexivity|]). contradiction.
  - simpl. unfold add_todo, task_missing. simpl.
    destruct d as [|kv d]; [reflexivity|].
    cbn [negb]. unfold contains. rewrite Hget. reflexivity.
Qed.

Lemma flask_task_field_required_witness :
  handle (POST_todos true
            (Some (JObj [(str_of "title", JStr (str_of "buy milk"))])))
    initial
  = (Reply (Error "Task field is required") 400, initial).
Proof.
  apply flask_task_field_required. right.
  eexists. split; reflexivity.
Defined.

(** X16: variant B does not answer 400 to every malformed body: the
    handler raises, and changes nothing, when the "task" entry of the
    object is not a string (AttributeError from [.strip()]), when the
    body is an array holding the string "task" or a string containing
    "task" (TypeError from [data['task']]), and when the body is true
    or a non-zero number (TypeError from ['task' in data]). *)
Theorem flask_malformed_body_raises (st : state) :
  (forall d v,
      dict_get (str_of "task") d = Some v ->
      (forall t, v <> JStr t) ->
      handle (POST_todos true (Some (JObj d))) st = (Raised AttributeError, st))
  /\ (forall l,
         In (JStr (str_of "task")) l ->
         handle (POST_todos true (Some (JArr l))) st = (Raised TypeError, st))
  /\ (forall s,
         str_contains s (str_of "task") = true ->
         handle (POST_todos true (Some (JStr s))) st = (Raised TypeError, st))
  /\ (forall n,
         n <> 0 ->
         handle (POST_todos true (Some (JInt n))) st = (Raised TypeError, st))
  /\ handle (POST_todos true (Some (JBool true))) st = (Raised TypeError, st)
  /\ handle (POST_todos true (Some (JReal false))) st = (Raised TypeError, st).
Proof.
  split; [|split; [|split; [|split; [|split]]]]; try reflexivity.
  - intros d v Hget Hv. simpl. unfold add_todo, task_missing. simpl.
    destruct d as [|kv d]; [discriminate Hget|].
    cbn [negb]. unfold contains, getitem. rewrite Hget. simpl.
    destruct v; try reflexivity. now destruct (Hv s).
  - intros l Hin. simpl. unfold add_todo, task_missing. simpl.
    destruct l as [|x l]; [contradiction|]. cbn [negb]. unfold contains.
    replace (existsb (is_str (str_of "task")) (x :: l)) with true;
      [reflexivity|].
    symmetry. apply existsb_exists.
    exists (JStr (str_of "task")). split; [exact Hin | reflexivity].
  - intros s Hs. simpl. unfold add_todo, task_missing.
    assert (Ht : truthy (JStr s) = true).
    { destruct s; [discriminate Hs | reflexivity]. }
    cbn [negb]. rewrite Ht. cbn [negb]. unfold contains. rewrite Hs.
    reflexivity.
  - intros n Hn. simpl. unfold add_todo, task_missing. simpl.
    destruct (Z.eqb_spec n 0); [contradiction | reflexivity].
Qed.

Lemma flask_malformed_body_raises_witness :
  handle (POST_todos true (Some (JObj [(str_of "task", JInt 5)]))) initial
  = (Raised AttributeError, initial)
  /\ handle (POST_todos true (Some (JArr [JStr (str_of "task")]))) initial
     = (Raised TypeError, initial)
  /\ handle (POST_todos true (Some (JStr (str_of "a task")))) initial
     = (Raised TypeError, initial)
  /\ handle (POST_todos true (Some (JInt 7))) initial
     = (Raised TypeError, initial).
Proof.
  destruct (flask_malformed_body_raises initial)
    as (Hobj & Harr & Hstr & Hint & _).
  split; [|split; [|split]].
  - apply (Hobj _ (JInt 5)); [reflexivity | discriminate].
  - apply Harr. left. reflexivity.
  - apply Hstr. reflexivity.
  - apply Hint. discriminate.
Defined.

Lemma created_app_handle (req : request) (st : state) :
  todos (snd (handle req st))
  = todos st ++ created [fst (handle req st)].
Proof.
  destruct req as [|is_json get_json|]; simpl;
    try (now rewrite app_nil_r).
  destruct (add_todo is_json get_json st) as [resp st'] eqn:E. simpl.
  destruct resp as [[l|error|new_todo|] status|e];
    try (destruct (add_todo_cases is_json get_json st)
           as [[_ H]|[task H]]; rewrite E in H;
         [simpl in H; subst st'; now rewrite app_nil_r | discriminate H]).
  apply add_todo_created in E as (_ & d & t & _ & _ & _ & _ & _ & ->).
  reflexivity.
Qed.

(** X17: the list of variant B only grows at its end: after any run,
    from any state, the store is the store before followed by exactly
    the items the run sent back as created, in that order; nothing is
    removed, changed or reordered. *)
Theorem flask_store_append_only (reqs : list request) (st : state) :
  todos (snd (run reqs st)) = todos st ++ created (fst (run reqs st)).
Proof.
  revert st. induction reqs as [|req reqs IH]; intros st.
  - simpl. now rewrite app_nil_r.
  - rewrite run_cons. cbn [fst snd]. rewrite IH, created_app_handle.
    rewrite <- app_assoc. f_equal.
    destruct (fst (handle req st)) as [[l|error|new_todo|] status|e];
      reflexivity.
Qed.

(** X18: in every reachable state of variant B each stored task is
    non-empty, is not blank and has no surrounding whitespace. *)
Theorem flask_stored_tasks_stripped (st : state) (todo : Todo) :
  reachable st ->
  In todo (todos st) ->
  task todo <> [] /\ blank (task todo) = false
  /\ strip (task todo) = task todo.
Proof.
  intros [reqs <-]. revert todo.
  assert (H : forall st0,
             Forall (fun x => blank (task x) = false
                              /\ strip (task x) = task x) (todos st0) ->
             Forall (fun x => blank (task x) = false
                              /\ strip (task x) = task x)
                    (todos (snd (run reqs st0)))).
  { induction reqs as [|req reqs IH]; intros st0 Hall; [exact Hall|].
    rewrite run_cons. cbn [snd]. apply IH.
    destruct req as [|is_json get_json|]; simpl; try exact Hall.
    destruct (add_todo_cases is_json get_json st0) as [[_ ->]|[tk E]];
      [exact Hall|].
    pose proof E as E'. apply add_todo_created in E'
      as (_ & d & t & _ & _ & Hb & Hnew & _ & _).
    rewrite E. cbn [snd todos]. apply Forall_app. split; [exact Hall|].
    constructor; [|constructor]. injection Hnew as ->. cbn [task].
    split; [|apply strip_idem].
    destruct (blank (strip t)) eqn:Hbs; [|reflexivity].
    pose proof (strip_blank _ Hbs) as Hs. rewrite strip_idem in Hs.
    apply strip_nil in Hs. congruence. }
  intros todo Hin.
  specialize (H initial (Forall_nil _)).
  rewrite Forall_forall in H. destruct (H todo Hin) as [Hb Hs].
  repeat split; try assumption.
  intros E. rewrite E in Hb. discriminate Hb.
Qed.

Lemma flask_stored_tasks_stripped_witness :
  let st := snd (run [POST_todos true
                        (Some (task_body (str_of "  buy milk ")))] initial) in
  In (mkTodo 1 (str_of "buy milk")) (todos st)
  /\ strip (str_of "buy milk") = str_of "buy milk".
Proof.
  cbv zeta.
  assert (Hreach : reachable
            (snd (run [POST_todos true
                         (Some (task_body (str_of "  buy milk ")))] initial))).
  { eexists. reflexivity. }
  assert (Hin : In (mkTodo 1 (str_of "buy milk"))
                  (todos (snd (run [POST_todos true
                         (Some (task_body (str_of "  buy milk ")))] initial))))
    by (left; reflexivity).
  destruct (flask_stored_tasks_stripped _ _ Hreach Hin) as (_ & _ & H).
  split; [exact Hin | exact H].
Defined.

(** X19: in every reachable state of variant B the stored ids are
    1, ..., n in order and the counter is n + 1: no id is skipped, and
    the next id is the one the item count plus one would give. *)
Theorem flask_counter_tracks_length (st : state) :
  reachable st ->
  ids (todos st) = count_from 1 (List.length (todos st))
  /\ next_id st = len (todos st) + 1.
Proof.
  intros H. destruct (reachable_counter_inv st H) as [Hids Hnext].
  split; [exact Hids | lia].
Qed.

Lemma flask_counter_tracks_length_witness :
  let st := snd (run [POST_todos true (Some (task_body (str_of "a")));
                      POST_todos true (Some (task_body (str_of " ")));
                      POST_todos true (Some (task_body (str_of "b")))]
                   initial) in
  ids (todos st) = [1; 2] /\ next_id st = 3.
Proof.
  cbv zeta. apply flask_counter_tracks_length.
  eexists. reflexivity.
Defined.

End FlaskTheorems.

Section FastApiValidation.
Import FastApi.

Lemma task_field_ok_spec (s : str) :
  task_field_ok s = true <-> 1 <= len s <= 200.
Proof.
  unfold task_field_ok. rewrite andb_true_iff, !Z.leb_le. tauto.
Qed.

Lemma Forall_list_remove (P : Todo -> Prop) (todo : Todo) (l : list Todo) :
  Forall P l -> Forall P (list_remove todo l).
Proof.
  induction 1 as [|x l Hx Hl IH]; simpl; [constructor|].
  destruct (Todo_eqb x todo); [exact Hl | now constructor].
Qed.

Lemma Forall_mutate_found (P : Todo -> Prop) (todo_id : Z) (f : Todo -> Todo)
    (l : list Todo) :
  (forall x, P x -> P (f x)) ->
  Forall P l -> Forall P (mutate_found todo_id f l).
Proof.
  intros Hf. induction 1 as [|x l Hx Hl IH]; simpl; [constructor|].
  destruct (id x =? todo_id); constructor; auto.
Qed.

Lemma bounded_tasks_handle (req : request) (todos : list Todo) :
  Forall (fun x => task_field_ok (task x) = true) todos ->
  Forall (fun x => task_field_ok (task x) = true) (snd (handle req todos)).
Proof.
  intros Hall.
  destruct req as [| |raw_task|todo_id|todo_id raw_task raw_completed
                   |todo_id|]; simpl; try exact Hall.
  - unfold validate_TodoCreate.
    destruct (task_field_ok raw_task) eqn:Hok; simpl; [|exact Hall].
    apply Forall_app. split; [exact Hall|].
    constructor; [exact Hok | constructor].
  - unfold respond, get_todo.
    destruct (find_todo_by_id todo_id todos); exact Hall.
  - unfold validate_TodoUpdate.
    assert (Hupd : forall u,
               (forall s, update_task u = Some s -> task_field_ok s = true) ->
               Forall (fun x => task_field_ok (task x) = true)
                 (snd (respond HTTP_200_OK Item (update_todo todo_id u todos)))).
    { intros u Hu. unfold respond, update_todo.
      destruct (find_todo_by_id todo_id todos); simpl; [|exact Hall].
      apply Forall_mutate_found; [|exact Hall].
      intros x Hx. unfold apply_update.
      destruct (update_task u) as [s|] eqn:Es;
        destruct (update_completed u); simpl; auto. }
    destruct raw_task as [s|].
    + destruct (task_field_ok s) eqn:Hok; [|exact Hall].
      apply Hupd. simpl. now intros s' [= <-].
    + apply Hupd. simpl. discriminate.
  - unfold respond, delete_todo.
    destruct (find_todo_by_id todo_id todos); simpl; [|exact Hall].
    now apply Forall_list_remove.
Qed.

(** X20: variant A accepts a creation exactly when the task has 1 to
    200 characters; it then stores the task as it was sent, without
    stripping, with [completed = false] and id [len(todos) + 1]. *)
Theorem fastapi_create_accepts_by_length (raw_task : str) (todos : list Todo) :
  (fst (fst (handle (POST_todos raw_task) todos)) = 201
   <-> 1 <= len raw_task <= 200)
  /\ (fst (fst (handle (POST_todos raw_task) todos)) = 422
      <-> len raw_task = 0 \/ 200 < len raw_task)
  /\ (1 <= len raw_task <= 200 ->
      let new_todo := mkTodo (len todos + 1) raw_task false in
      handle (POST_todos raw_task) todos
      = ((201, Item new_todo), todos ++ [new_todo])).
Proof.
  pose proof (task_field_ok_spec raw_task) as Hspec.
  pose proof (len_nonneg raw_task) as Hpos.
  simpl. unfold validate_TodoCreate.
  destruct (task_field_ok raw_task); simpl.
  - assert (H : 1 <= len raw_task <= 200) by now apply Hspec.
    repeat split; try reflexivity; try assumption; try lia;
      try discriminate.
  - assert (H : ~ 1 <= len raw_task <= 200).
    { intros H. apply Hspec in H. discriminate H. }
    repeat split; try reflexivity; try discriminate; try lia;
      try contradiction.
Qed.

Lemma fastapi_create_accepts_by_length_witness :
  handle (POST_todos (str_of "  pad  ")) initial
  = ((201, Item (mkTodo 1 (str_of "  pad  ") false)),
     [mkTodo 1 (str_of "  pad  ") false]).
Proof.
  apply (proj2 (proj2 (fastapi_create_accepts_by_length
                         (str_of "  pad  ") initial))).
  unfold len. simpl. lia.
Defined.

(** X21: in every store of variant A reachable from the empty one,
    each stored task has between 1 and 200 characters: creations and
    updates are both validated before they touch the store. *)
Theorem fastapi_stored_tasks_bounded (todos : list Todo) (todo : Todo) :
  reachable todos ->
  In todo todos ->
  1 <= len (task todo) <= 200.
Proof.
  intros [reqs <-] Hin.
  assert (H : forall todos0,
             Forall (fun x => task_field_ok (task x) = true) todos0 ->
             Forall (fun x => task_field_ok (task x) = true)
               (snd (run reqs todos0))).
  { clear Hin. induction reqs as [|req reqs IH]; intros todos0 Hall;
      [exact Hall|].
    rewrite fastapi_run_cons. cbn [snd]. apply IH.
    now apply bounded_tasks_handle. }
  specialize (H initial (Forall_nil _)).
  rewrite Forall_forall in H. apply task_field_ok_spec. now apply H.
Qed.

Lemma fastapi_stored_tasks_bounded_witness :
  1 <= len (str_of "bb") <= 200.
Proof.
  assert (Hreach : reachable
            (snd (run [POST_todos (str_of "a");
                       PUT_todo 1 (Some (str_of "bb")) None;
                       PUT_todo 1 (Some []) None] initial))).
  { eexists. reflexivity. }
  exact (fastapi_stored_tasks_bounded _ (mkTodo 1 (str_of "bb") false)
           Hreach (or_introl eq_refl)).
Defined.

End FastApiValidation.

Section FastApiPartialUpdate.
Import FastApi.

(** X23: in variant A, when the stored ids are pairwise distinct, the
    update addressed to any stored item acts on that very item.
    Supplying only [completed = true] returns and stores the item with
    [completed = true], the same task and the same id, in its place;
    for any update model a field left out keeps its value and a field
    supplied takes the new one. *)
Theorem fastapi_partial_update_unique (todos : list Todo) (todo : Todo)
    (todo_update : TodoUpdate) :
  NoDup (ids todos) ->
  In todo todos ->
  exists before after,
    todos = before ++ todo :: after
    /\ (let todo' := mkTodo (id todo) (task todo) true in
        update_todo (id todo) (mkTodoUpdate None (Some true)) todos
        = (Return todo', before ++ todo' :: after)
        /\ find_todo_by_id (id todo) (before ++ todo' :: after) = Some todo')
    /\ (let todo' :=
          mkTodo (id todo)
            (match update_task todo_update with
             | Some t => t
             | None => task todo
             end)
            (match update_completed todo_update with
             | Some c => c
             | None => completed todo
             end) in
        update_todo (id todo) todo_update todos
        = (Return todo', before ++ todo' :: after)
        /\ find_todo_by_id (id todo) (before ++ todo' :: after) = Some todo').
Proof.
  intros Hnd Hin.
  pose proof (find_todo_by_id_unique _ _ Hnd Hin) as Hf.
  destruct (list_remove_found _ _ _ Hf) as (before & after & E & Hno & _).
  exists before, after. split; [exact E|].
  assert (Hupd : forall u,
             update_todo (id todo) u todos
             = (Return (apply_update u todo),
                before ++ apply_update u todo :: after)
             /\ find_todo_by_id (id todo)
                  (before ++ apply_update u todo :: after)
                = Some (apply_update u todo)).
  { intros u. rewrite E at 1. split.
    - now apply update_todo_split.
    - rewrite (find_todo_by_id_skip _ _ _ Hno).
      unfold find_todo_by_id. simpl.
      now rewrite apply_update_id, Z.eqb_refl. }
  split.
  - exact (Hupd (mkTodoUpdate None (Some true))).
  - pose proof (Hupd todo_update) as H. unfold apply_update in H.
    destruct todo_update as [[t|] [c|]]; destruct todo; exact H.
Qed.

Lemma fastapi_partial_update_unique_witness :
  let a := mkTodo 1 (str_of "a") false in
  let b := mkTodo 2 (str_of "b") false in
  exists before after,
    [a; b] = before ++ b :: after
    /\ update_todo 2 (mkTodoUpdate None (Some true)) [a; b]
       = (Return (mkTodo 2 (str_of "b") true),
          before ++ mkTodo 2 (str_of "b") true :: after).
Proof.
  cbv zeta.
  assert (Hnd : NoDup (ids [mkTodo 1 (str_of "a") false;
                            mkTodo 2 (str_of "b") false])).
  { simpl. constructor; [intros [H|[]]; discriminate H|].
    constructor; [intros []|constructor]. }
  assert (Hin : In (mkTodo 2 (str_of "b") false)
                  [mkTodo 1 (str_of "a") false; mkTodo 2 (str_of "b") false])
    by (right; left; reflexivity).
  destruct (fastapi_partial_update_unique _ _ (mkTodoUpdate None None) Hnd Hin)
    as (before & after & E & [Hupd _] & _).
  exists before, after. split; [exact E | exact Hupd].
Defined.

End FastApiPartialUpdate.
